(** * crtsh_csv_to_nslookup: a shallow embedding of the script and its properties

    The script reads one column of host names out of a CSV file, runs
    [nslookup] (or [dig]) on each of them in a thread pool and writes one
    report file.  The embedding follows [src/crtsh_csv_to_nslookup.py]
    function by function:

    - Python [str] is [string]; every [ascii] stands for the code point of
      the same number, so the model covers the code points below 256;
    - the interpreter's control flow (normal return, [sys.exit], uncaught
      exception) is the type [ctl], threaded with the observable state
      [World] (files and console) by the monad [M];
    - everything the script does not decide is taken from an environment
      [Env]: what each child process does, the clock, [repr] of a string
      and the order in which the pool's futures complete;
    - the CSV file enters as the list of rows that [csv.reader] yields for
      it; [csv.DictReader] is modelled on top of that from the standard
      library's [csv.py]. *)

From Stdlib Require Import Ascii DecimalString.
From stdpp Require Import gmap strings list fin_maps.

Open Scope Z_scope.

(** ** Python strings *)

Module PyStr.

Definition nl : string := String (Ascii.ascii_of_nat 10) EmptyString.

(** [str.isspace] on the code points below 256: TAB..CR, FS..US, SPACE,
    NEL and NBSP. *)
Definition isspace (c : ascii) : bool :=
  let n := Ascii.nat_of_ascii c in
  (((9 <=? n) && (n <=? 13)) || ((28 <=? n) && (n <=? 32))
   || (n =? 133) || (n =? 160))%nat.

Fixpoint lstrip (s : string) : string :=
  match s with
  | EmptyString => EmptyString
  | String c s' => if isspace c then lstrip s' else s
  end.

Fixpoint rstrip (s : string) : string :=
  match s with
  | EmptyString => EmptyString
  | String c s' =>
      match rstrip s' with
      | EmptyString => if isspace c then EmptyString else String c EmptyString
      | r => String c r
      end
  end.

(** [s.strip()] *)
Definition strip (s : string) : string := rstrip (lstrip s).

(** Truth value of a string: [if s:] holds for every string but the
    empty one. *)
Definition truthy (s : string) : bool :=
  match s with EmptyString => false | String _ _ => true end.

(** [str(n)] for an [int]. *)
Definition str_of_nat (n : nat) : string :=
  NilZero.string_of_uint (Nat.to_uint n).

Definition str_of_Z (z : Z) : string :=
  NilZero.string_of_int (Z.to_int z).

(** [sep.join(l)] *)
Fixpoint join (sep : string) (l : list string) : string :=
  match l with
  | [] => EmptyString
  | [x] => x
  | x :: l' => x +:+ sep +:+ join sep l'
  end.

(** [sep.join] with the empty separator. *)
Fixpoint concat (l : list string) : string :=
  match l with
  | [] => EmptyString
  | x :: l' => x +:+ concat l'
  end.

(** [needle in hay] *)
Fixpoint contains (needle hay : string) : bool :=
  String.prefix needle hay
  || match hay with
     | EmptyString => false
     | String _ hay' => contains needle hay'
     end.

(** [s.split(sep)] for a one-character separator. *)
Fixpoint split (sep : ascii) (s : string) : list string :=
  match s with
  | EmptyString => [EmptyString]
  | String c s' =>
      if Ascii.eqb c sep then EmptyString :: split sep s'
      else match split sep s' with
           | [] => [String c EmptyString]
           | x :: l => String c x :: l
           end
  end.

End PyStr.

Import PyStr.

(** ** pathlib, POSIX flavour

    [Path(p)] keeps the root and the components of [p] that are neither
    empty nor [.]. *)

Module Path.

Definition parts (p : string) : list string :=
  filter (λ x, x ≠ EmptyString ∧ x ≠ "."%string) (split "/"%char p).

Definition root (p : string) : string :=
  match p with
  | String "/" (String "/" (String "/" _)) => "/"
  | String "/" (String "/" _) => "//"
  | String "/" _ => "/"
  | _ => EmptyString
  end%string.

(** [Path(p).name]: the last component, or the empty string. *)
Definition name (p : string) : string := List.last (parts p) EmptyString.

(** [str(Path(p))] *)
Definition str (p : string) : string :=
  match root p +:+ join "/" (parts p) with
  | EmptyString => "."
  | s => s
  end%string.

End Path.

(** ** Exceptions and control *)

(** An exception object: its class and [str(e)]. *)
Record exn := Exn { exn_type : string; exn_msg : string }.

(** What a call evaluates to inside [try]. *)
Inductive pyresult (A : Type) : Type :=
| Returned (a : A)
| Raised (e : exn).
Arguments Returned {A} a.
Arguments Raised {A} e.

(** What [subprocess.run(cmd, capture_output=True, text=True,
    timeout=TIMEOUT)] does: the child finishes in time, the timeout
    expires, or any other [Exception] is raised. *)
Inductive proc_outcome : Type :=
| Completed (returncode : Z) (stdout stderr : string)
| TimeoutExpired
| Failed (e : exn).

(** The environment of one run. *)
Record Env := {
  (** the outcome of the child process of the [i]-th submitted task *)
  subprocess_run : nat → list string → proc_outcome;
  (** [datetime.utcnow().isoformat()] *)
  utcnow_isoformat : string;
  (** [repr(s)] of a string *)
  repr_str : string → string;
  (** which of the pending futures completes next, step by step *)
  completion : list nat
}.

(** ** CONFIG

    [TIMEOUT] is handed to [subprocess.run], whose outcome the environment
    gives; [MAX_WORKERS] bounds how many children run at a time and leaves
    every completion order possible. *)

Definition QUERY_CMD : string := "nslookup".
Definition NSLOOKUP_TYPE : string := "-type=TXT".
Definition DIG_TYPE : string := "TXT".
Definition TIMEOUT : nat := 6.
Definition MAX_WORKERS : nat := 12.

(** ** The resolver *)

Definition make_nslookup_cmd (host : string) : pyresult (option (list string)) :=
  let host := strip host in
  if negb (truthy host) then Returned None
  else if String.eqb QUERY_CMD "nslookup" then
    if truthy NSLOOKUP_TYPE then Returned (Some ["nslookup"; NSLOOKUP_TYPE; host])
    else Returned (Some ["nslookup"; host])
  else if String.eqb QUERY_CMD "dig" then
    Returned (Some ["dig"; "+short"; "TXT"; host])
  else Raised (Exn "ValueError" "QUERY_CMD must be 'nslookup' or 'dig'").

Definition STATUS_OK : string := "OK".
Definition STATUS_EMPTY : string := "EMPTY_HOSTNAME".
Definition STATUS_EXC : string := "EXC".

Definition timeout_message : string :=
  "ERROR: timeout after " +:+ str_of_nat TIMEOUT +:+ "s".

Definition completed_text (rc : Z) (stdout stderr : string) : string :=
  "RETURN_CODE=" +:+ str_of_Z rc +:+ nl +:+ "STDOUT:" +:+ nl +:+ stdout
    +:+ nl +:+ "STDERR:" +:+ nl +:+ stderr.

(** [run_query(host)] as the [task]-th task of the pool. *)
Definition run_query (E : Env) (task : nat) (host : string)
  : pyresult (string * string * string) :=
  match make_nslookup_cmd host with
  | Raised e => Raised e
  | Returned None => Returned (host, STATUS_EMPTY, EmptyString)
  | Returned (Some cmd) =>
      let out :=
        match subprocess_run E task cmd with
        | Completed rc stdout stderr =>
            completed_text rc (strip stdout) (strip stderr)
        | TimeoutExpired => timeout_message
        | Failed e => "ERROR: " +:+ exn_msg e
        end in
      Returned (host, STATUS_OK, out)
  end.

(** ** The observable state and the interpreter's control flow *)

(** The files, by path, and what was printed. *)
Record World := {
  files : gmap string string;
  console : string
}.

(** How a piece of the script ends: it falls through with a value, it
    calls [sys.exit], or an exception leaves it uncaught. *)
Inductive ctl (A : Type) : Type :=
| Normal (a : A)
| SysExit (code : Z)
| Uncaught (e : exn).
Arguments Normal {A} a.
Arguments SysExit {A} code.
Arguments Uncaught {A} e.

Definition M (A : Type) : Type := World → ctl A * World.

Definition ret {A} (a : A) : M A := λ w, (Normal a, w).

Definition bind {A B} (m : M A) (k : A → M B) : M B :=
  λ w, match m w with
       | (Normal a, w') => k a w'
       | (SysExit c, w') => (SysExit c, w')
       | (Uncaught e, w') => (Uncaught e, w')
       end.

#[export] Instance M_ret : MRet M := @ret.
#[export] Instance M_bind : MBind M := λ A B k m, bind m k.

Definition raise {A} (e : exn) : M A := λ w, (Uncaught e, w).
Definition sys_exit {A} (code : Z) : M A := λ w, (SysExit code, w).

Definition lift {A} (r : pyresult A) : M A :=
  match r with
  | Returned a => ret a
  | Raised e => raise e
  end.

(** [print(s)] *)
Definition print (s : string) : M unit :=
  λ w, (Normal tt, {| files := files w; console := console w +:+ s +:+ nl |}).

(** [path.open("w")]: the file is created, or emptied when it exists. *)
Definition open_w (path : string) : M unit :=
  λ w, (Normal tt, {| files := <[path := EmptyString]> (files w);
                      console := console w |}).

(** [outfh.write(s)] on the handle opened for [path]. *)
Definition write (path : string) (s : string) : M unit :=
  λ w, (Normal tt, {| files := alter (λ c, c +:+ s) path (files w);
                      console := console w |}).

(** [for x in l: body(x)] *)
Fixpoint for_each {A} (l : list A) (body : A → M unit) : M unit :=
  match l with
  | [] => ret tt
  | x :: l' => body x ;; for_each l' body
  end.

(** The exit status of the process. *)
Definition exit_status {A} (c : ctl A) : Z :=
  match c with
  | Normal _ => 0
  | SysExit code => code
  | Uncaught _ => 1
  end.

(** ** csv.DictReader *)

Module DictReader.

(** The header is the first row the reader yields; an empty file has
    none and [fieldnames] is [None]. *)
Definition fieldnames (rows : list (list string)) : option (list string) :=
  head rows.

(** The rows after the header. *)
Definition records (rows : list (list string)) : list (list string) :=
  tail rows.

(** The dict of one record.  A value is [Some s] for the string [s] and
    [None] for Python's [None], the [restval] of a short row.  The fields
    of a long row go under the key [None], which no column name equals;
    they are left out. *)
Definition row_dict (fieldnames row : list string) : gmap string (option string) :=
  let d := foldl (λ d kv, <[kv.1 := Some kv.2]> d) ∅ (zip fieldnames row) in
  foldl (λ d key, <[key := None]> d) d (drop (length row) fieldnames).

End DictReader.

(** ** The loader: lines 69 to 78 of [main] *)

Definition AttributeError_strip : exn :=
  Exn "AttributeError" "'NoneType' object has no attribute 'strip'".

Definition TypeError_not_iterable : exn :=
  Exn "TypeError" "argument of type 'NoneType' is not iterable".

(** [row.get(column_name, default)] with the empty string as default *)
Definition row_get (d : gmap string (option string)) (column_name : string)
  : option string :=
  match d !! column_name with
  | Some v => v
  | None => Some EmptyString
  end.

(** The [for row in reader] loop; [hosts] is the list built so far.  The
    reader passes over the rows that are [[]]. *)
Fixpoint load_loop (fieldnames : list string) (column_name : string)
    (records : list (list string)) (hosts : list string) : pyresult (list string) :=
  match records with
  | [] => Returned hosts
  | [] :: records' => load_loop fieldnames column_name records' hosts
  | row :: records' =>
      match row_get (DictReader.row_dict fieldnames row) column_name with
      | None => Raised AttributeError_strip
      | Some v =>
          let value := strip v in
          if truthy value
          then load_loop fieldnames column_name records' (hosts ++ [value])
          else load_loop fieldnames column_name records' hosts
      end
  end.

(** [repr] of a list of strings. *)
Definition repr_list (E : Env) (l : list string) : string :=
  "[" +:+ join ", " (map (repr_str E) l) +:+ "]".

Definition column_not_found (E : Env) (column_name : string)
    (fieldnames : list string) : string :=
  "ERROR: column '" +:+ column_name +:+ "' not found. Available columns: "
    +:+ repr_list E fieldnames.

Definition load_hosts (E : Env) (column_name : string)
    (rows : list (list string)) : M (list string) :=
  match DictReader.fieldnames rows with
  | None => raise TypeError_not_iterable
  | Some fieldnames =>
      if bool_decide (column_name ∈ fieldnames)
      then lift (load_loop fieldnames column_name (DictReader.records rows) [])
      else print (column_not_found E column_name fieldnames) ;; sys_exit 2
  end.

(** ** The reporter *)

Definition write_header (E : Env) (outfh : string) (csv_file column : string)
    (total : nat) : M unit :=
  write outfh ("# csv_nslookup.py results" +:+ nl) ;;
  write outfh ("# source CSV: " +:+ csv_file +:+ nl) ;;
  write outfh ("# column: " +:+ column +:+ nl) ;;
  write outfh ("# date: " +:+ utcnow_isoformat E +:+ "Z" +:+ nl) ;;
  write outfh ("# total hosts: " +:+ str_of_nat total +:+ nl +:+ nl).

(** A future of the pool: the number of its task and what [fut.result()]
    gives once it is done. *)
Record Future := {
  fut_task : nat;
  fut_result : pyresult (string * string * string)
}.

(** [ex.submit(run_query, h)] for the [task]-th host. *)
Definition submit (E : Env) (task : nat) (h : string) : Future :=
  {| fut_task := task; fut_result := run_query E task h |}.

(** [{ex.submit(run_query, h): h for h in hosts}], in submission order.
    Every call of [submit] makes a future of its own, so a host that occurs
    twice has two entries. *)
Definition submit_all (E : Env) (hosts : list string) : list (Future * string) :=
  imap (λ task h, (submit E task h, h)) hosts.

(** [as_completed]: every pending future is yielded once; which one comes
    next is the environment's choice, [pick] modulo the number of futures
    still pending (the first one when the choices run out). *)
Fixpoint as_completed_from {A} (n : nat) (picks : list nat) (pending : list A)
  : list A :=
  match n with
  | O => []
  | S n' =>
      let k := (hd 0%nat picks mod length pending)%nat in
      match pending !! k with
      | Some x => x :: as_completed_from n' (tl picks) (delete k pending)
      | None => []
      end
  end.

Definition as_completed {A} (picks : list nat) (fs : list A) : list A :=
  as_completed_from (length fs) picks fs.

(** The [try: fut.result() except Exception] of the loop: the triple the
    future returned, or the [EXC] triple for the exception it raised. *)
Definition fut_outcome (entry : Future * string) : string * string * string :=
  let '(fut, host) := entry in
  match fut_result fut with
  | Returned r => r
  | Raised e => (host, STATUS_EXC, "ERROR: " +:+ exn_msg e)
  end.

(** The body of the [for fut in as_completed(futures)] loop. *)
Definition report_result (outfh : string) (entry : Future * string) : M unit :=
  let '(hostname, status, output) := fut_outcome entry in
  write outfh ("--- " +:+ hostname +:+ " ---" +:+ nl) ;;
  write outfh output ;;
  write outfh (nl +:+ nl).

(** ** main

    [csv_path] and [out_path] become [Path] objects: the file that is
    opened, and the path that is printed, is [str(Path(out_path))]. *)

Definition main (E : Env) (csv_path column_name out_path : string)
    (rows : list (list string)) : M unit :=
  let out_path := Path.str out_path in
  hosts ← load_hosts E column_name rows;
  if bool_decide (hosts = [])
  then print "No hosts found in that column."
  else
    open_w out_path ;;
    write_header E out_path (Path.name csv_path) column_name (length hosts) ;;
    for_each (as_completed (completion E) (submit_all E hosts))
             (report_result out_path) ;;
    print ("Done. Results saved to " +:+ out_path).

(** The [__main__] block; [argv] is [sys.argv] and [rows] what the CSV
    reader yields for the file named by [argv[1]]. *)
Definition script (E : Env) (argv : list string) (rows : list (list string))
  : M unit :=
  match argv with
  | [_; csv_path; column_name; out_path] => main E csv_path column_name out_path rows
  | _ =>
      print "Usage: python3 csv_nslookup.py input.csv ColumnName output.txt" ;;
      sys_exit 1
  end.

(** ** Running the model *)

Module Examples.

Definition a_record : proc_outcome :=
  Completed 0 ("Server: 1.1.1.1" +:+ nl) EmptyString.

Definition E0 : Env :=
  {| subprocess_run := λ task _,
       match task with
       | O => a_record
       | 1%nat => TimeoutExpired
       | _ => Failed (Exn "FileNotFoundError" "[Errno 2] No such file or directory: 'nslookup'")
       end;
     utcnow_isoformat := "2024-01-01T00:00:00";
     repr_str := λ s, "'" +:+ s +:+ "'";
     completion := [1%nat; 0%nat] |}.

Definition w0 : World := {| files := ∅; console := EmptyString |}.

Definition spec_rows : list (list string) :=
  [ ["CN"; "Issuer"];
    ["a.example.com"; "X"];
    [EmptyString; "Y"];
    ["b.example.com"; "Z"] ].

Definition hosts0 : list string := ["a.example.com"; "b.example.com"].

End Examples.

Import Examples.

(** ** The text of a report *)

(** What [write_header] puts into the file. *)
Definition header_text (E : Env) (csv_file column : string) (total : nat) : string :=
  "# csv_nslookup.py results" +:+ nl
  +:+ "# source CSV: " +:+ csv_file +:+ nl
  +:+ "# column: " +:+ column +:+ nl
  +:+ "# date: " +:+ utcnow_isoformat E +:+ "Z" +:+ nl
  +:+ "# total hosts: " +:+ str_of_nat total +:+ nl +:+ nl.

(** A report block: the delimiter line, the output and the blank line. *)
Definition block (hostname output : string) : string :=
  "--- " +:+ hostname +:+ " ---" +:+ nl +:+ output +:+ nl +:+ nl.

(** The block that one pass of the loop writes. *)
Definition block_text (entry : Future * string) : string :=
  let '(hostname, _, output) := fut_outcome entry in block hostname output.

(** The host named in the delimiter of that block. *)
Definition block_host (entry : Future * string) : string :=
  (fut_outcome entry).1.1.

(** The futures in the order in which the loop sees them. *)
Definition completed (E : Env) (hosts : list string) : list (Future * string) :=
  as_completed (completion E) (submit_all E hosts).

Definition report_text (E : Env) (csv_path column_name : string)
    (hosts : list string) : string :=
  header_text E (Path.name csv_path) column_name (length hosts)
  +:+ concat (map block_text (completed E hosts)).

(** ** The column as the specification sees it *)

(** A host as the loader keeps it: trimmed and not empty. *)
Definition loaded_host (h : string) : Prop := strip h = h ∧ h ≠ EmptyString.

(** The strings found in the column, record by record: the reader passes
    over a record that is [[]], and a record that is too short to reach the
    column has [None] there and contributes no string. *)
Fixpoint column_values (fieldnames : list string) (column_name : string)
    (records : list (list string)) : list string :=
  match records with
  | [] => []
  | [] :: records' => column_values fieldnames column_name records'
  | row :: records' =>
      match row_get (DictReader.row_dict fieldnames row) column_name with
      | Some v => v :: column_values fieldnames column_name records'
      | None => column_values fieldnames column_name records'
      end
  end.

(** The non-empty trimmed values of the column. *)
Definition trimmed_values (fieldnames : list string) (column_name : string)
    (records : list (list string)) : list string :=
  filter (λ v, v ≠ EmptyString)
         (map strip (column_values fieldnames column_name records)).

(** No record stops short of the column. *)
Definition no_short_row (fieldnames : list string) (column_name : string)
    (records : list (list string)) : Prop :=
  Forall (λ row, row = [] ∨
                 is_Some (row_get (DictReader.row_dict fieldnames row) column_name))
         records.

(** The sentence of C3 as the specification has it: for a row whose value
    in the column is empty after trimming, the report records the
    [EMPTY_HOSTNAME] status. *)
Definition empty_hostname_recorded : Prop :=
  ∀ (E : Env) (csv_path column_name out_path : string)
    (fieldnames : list string) (records : list (list string))
    (row : list string) (v : string) (w : World),
    column_name ∈ fieldnames →
    row ∈ records →
    row_get (DictReader.row_dict fieldnames row) column_name = Some v →
    strip v = EmptyString →
    ∃ content,
      files (main E csv_path column_name out_path (fieldnames :: records) w).2
        !! Path.str out_path = Some content
      ∧ contains STATUS_EMPTY content = true.

(** ** The column by position *)

(** The [i]-th fields of the records that have one, in the order of the
    records.  A blank record has no field at all. *)
Fixpoint column_cells (i : nat) (records : list (list string)) : list string :=
  match records with
  | [] => []
  | row :: records' =>
      match row !! i with
      | Some v => v :: column_cells i records'
      | None => column_cells i records'
      end
  end.

(** ** The CONFIG block as a parameter

    The constants of the CONFIG block are module globals that the functions
    read when they run, and the script invites to edit them.  The
    definitions below are [make_nslookup_cmd], [run_query] and [main] once
    more, with the globals taken from a record; at [source_config] they are
    the definitions above. *)

Record Config := {
  cfg_QUERY_CMD : string;
  cfg_NSLOOKUP_TYPE : string;
  cfg_DIG_TYPE : string;
  cfg_TIMEOUT : nat;
  cfg_MAX_WORKERS : nat
}.

Definition source_config : Config :=
  {| cfg_QUERY_CMD := QUERY_CMD;
     cfg_NSLOOKUP_TYPE := NSLOOKUP_TYPE;
     cfg_DIG_TYPE := DIG_TYPE;
     cfg_TIMEOUT := TIMEOUT;
     cfg_MAX_WORKERS := MAX_WORKERS |}.

Definition QUERY_CMD_error : exn :=
  Exn "ValueError" "QUERY_CMD must be 'nslookup' or 'dig'".

Definition make_nslookup_cmd_with (C : Config) (host : string)
  : pyresult (option (list string)) :=
  let host := strip host in
  if negb (truthy host) then Returned None
  else if String.eqb (cfg_QUERY_CMD C) "nslookup" then
    if truthy (cfg_NSLOOKUP_TYPE C)
    then Returned (Some ["nslookup"; cfg_NSLOOKUP_TYPE C; host])
    else Returned (Some ["nslookup"; host])
  else if String.eqb (cfg_QUERY_CMD C) "dig" then
    Returned (Some ["dig"; "+short"; "TXT"; host])
  else Raised QUERY_CMD_error.

Definition run_query_with (C : Config) (E : Env) (task : nat) (host : string)
  : pyresult (string * string * string) :=
  match make_nslookup_cmd_with C host with
  | Raised e => Raised e
  | Returned None => Returned (host, STATUS_EMPTY, EmptyString)
  | Returned (Some cmd) =>
      let out :=
        match subprocess_run E task cmd with
        | Completed rc stdout stderr =>
            completed_text rc (strip stdout) (strip stderr)
        | TimeoutExpired =>
            "ERROR: timeout after " +:+ str_of_nat (cfg_TIMEOUT C) +:+ "s"
        | Failed e => "ERROR: " +:+ exn_msg e
        end in
      Returned (host, STATUS_OK, out)
  end.

Definition submit_with (C : Config) (E : Env) (task : nat) (h : string) : Future :=
  {| fut_task := task; fut_result := run_query_with C E task h |}.

Definition submit_all_with (C : Config) (E : Env) (hosts : list string)
  : list (Future * string) :=
  imap (λ task h, (submit_with C E task h, h)) hosts.

Definition main_with (C : Config) (E : Env) (csv_path column_name out_path : string)
    (rows : list (list string)) : M unit :=
  let out_path := Path.str out_path in
  hosts ← load_hosts E column_name rows;
  if bool_decide (hosts = [])
  then print "No hosts found in that column."
  else
    open_w out_path ;;
    write_header E out_path (Path.name csv_path) column_name (length hosts) ;;
    for_each (as_completed (completion E) (submit_all_with C E hosts))
             (report_result out_path) ;;
    print ("Done. Results saved to " +:+ out_path).

(** ** The outcomes of a run *)

(** What a run comes to, by the input. *)
Inductive main_case (E : Env) (csv_path column_name out_path : string)
    (rows : list (list string)) (w : World) : ctl unit * World → Prop :=
| case_empty :
    rows = [] →
    main_case E csv_path column_name out_path rows w
      (Uncaught TypeError_not_iterable, w)
| case_missing fieldnames records :
    rows = fieldnames :: records →
    column_name ∉ fieldnames →
    main_case E csv_path column_name out_path rows w
      (SysExit 2,
       {| files := files w;
          console := console w +:+ column_not_found E column_name fieldnames
                       +:+ nl |})
| case_short fieldnames records :
    rows = fieldnames :: records →
    column_name ∈ fieldnames →
    ¬ no_short_row fieldnames column_name records →
    main_case E csv_path column_name out_path rows w
      (Uncaught AttributeError_strip, w)
| case_no_hosts fieldnames records :
    rows = fieldnames :: records →
    column_name ∈ fieldnames →
    no_short_row fieldnames column_name records →
    trimmed_values fieldnames column_name records = [] →
    main_case E csv_path column_name out_path rows w
      (Normal tt,
       {| files := files w;
          console := console w +:+ "No hosts found in that column." +:+ nl |})
| case_report fieldnames records :
    rows = fieldnames :: records →
    column_name ∈ fieldnames →
    no_short_row fieldnames column_name records →
    trimmed_values fieldnames column_name records ≠ [] →
    main_case E csv_path column_name out_path rows w
      (Normal tt,
       {| files :=
            <[Path.str out_path :=
                report_text E csv_path column_name
                  (trimmed_values fieldnames column_name records)]> (files w);
          console := console w
            +:+ ("Done. Results saved to " +:+ Path.str out_path) +:+ nl |}).

(** * Properties *)

(** ** Strings *)

Section StringFacts.

Lemma append_cons (c : ascii) (s t : string) :
  String c s +:+ t = String c (s +:+ t).
Proof. reflexivity. Qed.

Lemma append_nil_r (s : string) : s +:+ EmptyString = s.
Proof. induction s as [|c s IH]; [done | by rewrite append_cons, IH]. Qed.

Lemma append_assoc (s t u : string) : (s +:+ t) +:+ u = s +:+ (t +:+ u).
Proof. induction s as [|c s IH]; [done | by rewrite !append_cons, IH]. Qed.

Lemma concat_app (l1 l2 : list string) :
  concat (l1 ++ l2) = concat l1 +:+ concat l2.
Proof.
  induction l1 as [|x l1 IH]; simpl; [done|].
  by rewrite IH, append_assoc.
Qed.

Lemma truthy_true (s : string) : truthy s = true ↔ s ≠ EmptyString.
Proof. destruct s; simpl; split; intros; congruence. Qed.

Lemma lstrip_cases (s : string) :
  lstrip s = EmptyString
  ∨ ∃ c s', lstrip s = String c s' ∧ isspace c = false.
Proof.
  induction s as [|c s IH]; simpl; [by left|].
  destruct (isspace c) eqn:Hc; [done|]. right; eauto.
Qed.

Lemma rstrip_keeps_head (c : ascii) (s : string) :
  isspace c = false → rstrip (String c s) = String c (rstrip s).
Proof. intros Hc. simpl. rewrite Hc. by destruct (rstrip s). Qed.

Lemma rstrip_idem (s : string) : rstrip (rstrip s) = rstrip s.
Proof.
  induction s as [|c s IH]; [done|].
  simpl. destruct (rstrip s) as [|a r] eqn:Hr.
  - destruct (isspace c) eqn:Hc; [done|]. simpl. by rewrite Hc.
  - change (rstrip (String c (String a r))) with
      (match rstrip (String a r) with
       | EmptyString => if isspace c then EmptyString else String c EmptyString
       | String a' r' => String c (String a' r')
       end).
    by rewrite IH.
Qed.

(** Stripping twice is stripping once. *)
Lemma strip_idem (s : string) : strip (strip s) = strip s.
Proof.
  unfold strip. destruct (lstrip_cases s) as [->|(c & s' & -> & Hc)]; [done|].
  rewrite (rstrip_keeps_head _ _ Hc). simpl lstrip. rewrite Hc.
  rewrite (rstrip_keeps_head _ _ Hc). by rewrite rstrip_idem.
Qed.

End StringFacts.

(** ** The monad and the file system *)

Section WorldFacts.

Lemma bind_normal {A B} (m : M A) (k : A → M B) (w w' : World) (a : A) :
  m w = (Normal a, w') → (m ≫= k) w = k a w'.
Proof. intros H. unfold mbind, M_bind, bind. by rewrite H. Qed.

Lemma bind_sys_exit {A B} (m : M A) (k : A → M B) (w w' : World) (c : Z) :
  m w = (SysExit c, w') → (m ≫= k) w = (SysExit c, w').
Proof. intros H. unfold mbind, M_bind, bind. by rewrite H. Qed.

Lemma bind_uncaught {A B} (m : M A) (k : A → M B) (w w' : World) (e : exn) :
  m w = (Uncaught e, w') → (m ≫= k) w = (Uncaught e, w').
Proof. intros H. unfold mbind, M_bind, bind. by rewrite H. Qed.

(** Writing to a file that holds [c] leaves it holding [c +:+ s]. *)
Lemma write_insert (p s c : string) (fs : gmap string string) (con : string) :
  write p s {| files := <[p := c]> fs; console := con |}
  = (Normal tt, {| files := <[p := c +:+ s]> fs; console := con |}).
Proof. unfold write. simpl. by rewrite alter_insert_eq. Qed.

(** Steps through a sequence of writes to one file. *)
Ltac step_writes :=
  repeat (erewrite bind_normal; [|apply write_insert]);
  rewrite write_insert.

Lemma write_header_insert (E : Env) (p f col c : string) (n : nat)
    (fs : gmap string string) (con : string) :
  write_header E p f col n {| files := <[p := c]> fs; console := con |}
  = (Normal tt, {| files := <[p := c +:+ header_text E f col n]> fs;
                   console := con |}).
Proof.
  unfold write_header. step_writes. unfold header_text.
  by rewrite !append_assoc.
Qed.

Lemma report_result_insert (p c : string) (entry : Future * string)
    (fs : gmap string string) (con : string) :
  report_result p entry {| files := <[p := c]> fs; console := con |}
  = (Normal tt, {| files := <[p := c +:+ block_text entry]> fs;
                   console := con |}).
Proof.
  unfold report_result, block_text, block.
  destruct (fut_outcome entry) as [[hostname status] output].
  step_writes. by rewrite !append_assoc.
Qed.

Lemma for_each_report_insert (p : string) (entries : list (Future * string)) :
  ∀ (c : string) (fs : gmap string string) (con : string),
    for_each entries (report_result p)
      {| files := <[p := c]> fs; console := con |}
    = (Normal tt,
       {| files := <[p := c +:+ concat (map block_text entries)]> fs;
          console := con |}).
Proof.
  induction entries as [|e entries IH]; intros c fs con; simpl.
  - unfold ret. by rewrite append_nil_r.
  - erewrite bind_normal; [|apply report_result_insert].
    rewrite IH. by rewrite append_assoc.
Qed.

End WorldFacts.

(** ** The pool *)

Section PoolFacts.

Context {A : Type}.

(** Whatever the environment picks, every pending future is yielded
    exactly once. *)
Lemma as_completed_from_perm (n : nat) :
  ∀ (picks : list nat) (pending : list A),
    length pending = n → as_completed_from n picks pending ≡ₚ pending.
Proof.
  induction n as [|n IH]; intros picks pending Hlen.
  - by destruct pending.
  - simpl.
    assert (hd 0 picks mod length pending < length pending)%nat as Hlt
      by (apply Nat.mod_upper_bound; lia).
    destruct (lookup_lt_is_Some_2 _ _ Hlt) as [x Hx]. rewrite Hx.
    etrans; [|symmetry; apply (delete_Permutation pending _ x Hx)].
    constructor. apply IH.
    rewrite length_delete by eauto. lia.
Qed.

Lemma as_completed_perm (picks : list nat) (fs : list A) :
  as_completed picks fs ≡ₚ fs.
Proof. by apply as_completed_from_perm. Qed.

(** Conversely, every order of the futures is the completion order of
    some choice of the environment. *)
Lemma as_completed_any_order (order : list A) :
  ∀ fs : list A, order ≡ₚ fs → ∃ picks, as_completed picks fs = order.
Proof.
  induction order as [|x order IH]; intros fs Hperm.
  - apply Permutation_nil_l in Hperm as <-. by exists [].
  - assert (x ∈ fs) as Hin by (rewrite <- Hperm; left).
    apply list_elem_of_lookup in Hin as [k Hk].
    assert (order ≡ₚ delete k fs) as Hrest.
    { apply (Permutation_cons_inv (a := x)).
      by rewrite Hperm, <- (delete_Permutation fs k x Hk). }
    destruct (IH _ Hrest) as [picks Hpicks].
    exists (k :: picks). unfold as_completed.
    pose proof (lookup_lt_Some _ _ _ Hk) as Hlt.
    destruct fs as [|y fs]; [simpl in Hlt; lia|].
    change (length (y :: fs)) with (S (length fs)) in *.
    cbn [as_completed_from hd tl].
    change (length (y :: fs)) with (S (length fs)).
    rewrite Nat.mod_small by lia. rewrite Hk. f_equal.
    unfold as_completed in Hpicks.
    rewrite length_delete in Hpicks by eauto.
    change (length (y :: fs)) with (S (length fs)) in Hpicks.
    by replace (S (length fs) - 1)%nat with (length fs) in Hpicks by lia.
Qed.

End PoolFacts.

Section ResolverFacts.

Variable E : Env.

Lemma length_submit_all (hosts : list string) :
  length (submit_all E hosts) = length hosts.
Proof. unfold submit_all. by rewrite length_imap. Qed.

Lemma length_completed (hosts : list string) :
  length (completed E hosts) = length hosts.
Proof.
  unfold completed.
  by rewrite (Permutation_length (as_completed_perm _ _)), length_submit_all.
Qed.

(** The delimiter of a block names the host the task was submitted
    for, whichever way the task ended. *)
Lemma block_host_submit (task : nat) (h : string) :
  block_host (submit E task h, h) = h.
Proof.
  unfold block_host, fut_outcome, submit, run_query. simpl.
  destruct (make_nslookup_cmd h) as [[cmd|]|e]; done.
Qed.

Lemma block_host_submit_all (hosts : list string) :
  map block_host (submit_all E hosts) = hosts.
Proof.
  unfold submit_all. generalize 0%nat as start.
  assert (∀ (f : nat → nat) (l : list string),
    map block_host (imap (λ task h, (submit E (f task) h, h)) l) = l) as H.
  { intros f l. revert f.
    induction l as [|h l IH]; intros f; [done|].
    cbn [imap map]. rewrite block_host_submit. f_equal.
    apply (IH (f ∘ S)). }
  intros _. apply (H id).
Qed.

Lemma block_hosts_completed (hosts : list string) :
  map block_host (completed E hosts) ≡ₚ hosts.
Proof.
  unfold completed.
  rewrite (as_completed_perm (completion E) (submit_all E hosts)).
  by rewrite block_host_submit_all.
Qed.

(** The future of the [task]-th host is among the completed ones. *)
Lemma submit_in_completed (hosts : list string) (task : nat) (h : string) :
  hosts !! task = Some h → (submit E task h, h) ∈ completed E hosts.
Proof.
  intros Hh. unfold completed. rewrite as_completed_perm.
  unfold submit_all. apply list_elem_of_lookup. exists task.
  by rewrite list_lookup_imap, Hh.
Qed.

End ResolverFacts.

(** ** The loader *)

Section LoaderFacts.

Variables (fieldnames : list string) (column_name : string).

Lemma load_loop_blank (records : list (list string)) (hosts : list string) :
  load_loop fieldnames column_name ([] :: records) hosts
  = load_loop fieldnames column_name records hosts.
Proof. reflexivity. Qed.

Lemma load_loop_record (row : list string) (records : list (list string))
    (hosts : list string) :
  row ≠ [] →
  load_loop fieldnames column_name (row :: records) hosts
  = match row_get (DictReader.row_dict fieldnames row) column_name with
    | None => Raised AttributeError_strip
    | Some v =>
        if truthy (strip v)
        then load_loop fieldnames column_name records (hosts ++ [strip v])
        else load_loop fieldnames column_name records hosts
    end.
Proof. by destruct row. Qed.

(** Every host the loader returns is trimmed and not empty. *)
Lemma load_loop_loaded (records : list (list string)) :
  ∀ acc hosts,
    load_loop fieldnames column_name records acc = Returned hosts →
    Forall loaded_host acc → Forall loaded_host hosts.
Proof.
  induction records as [|row records IH]; intros acc hosts Hload Hacc.
  - simpl in Hload. by simplify_eq.
  - destruct (decide (row = [])) as [->|Hrow].
    + rewrite load_loop_blank in Hload. eauto.
    + rewrite load_loop_record in Hload by done.
      destruct (row_get _ _) as [v|]; [|done].
      destruct (truthy (strip v)) eqn:Hv; [|eauto].
      apply (IH _ _ Hload). apply Forall_app; split; [done|].
      constructor; [|done]. split; [apply strip_idem|].
      by apply truthy_true.
Qed.

(** A record whose value is empty after trimming changes nothing. *)
Lemma load_loop_skips (rows1 : list (list string)) :
  ∀ (row : list string) (rows2 : list (list string)) (v : string)
    (acc : list string),
    row_get (DictReader.row_dict fieldnames row) column_name = Some v →
    strip v = EmptyString →
    load_loop fieldnames column_name (rows1 ++ row :: rows2) acc
    = load_loop fieldnames column_name (rows1 ++ rows2) acc.
Proof.
  induction rows1 as [|r rows1 IH]; intros row rows2 v acc Hget Hv.
  - simpl app. destruct (decide (row = [])) as [->|Hrow]; [done|].
    rewrite load_loop_record by done. by rewrite Hget, Hv.
  - simpl app. destruct (decide (r = [])) as [->|Hr].
    + rewrite !load_loop_blank. eauto.
    + rewrite !load_loop_record by done.
      destruct (row_get (DictReader.row_dict fieldnames r) column_name)
        as [u|]; [|done].
      destruct (truthy (strip u)); eauto.
Qed.

(** Where no record is short, the loader returns the non-empty trimmed
    values of the column, in the order of the records. *)
Lemma load_loop_values (records : list (list string)) :
  ∀ acc,
    no_short_row fieldnames column_name records →
    load_loop fieldnames column_name records acc
    = Returned (acc ++ trimmed_values fieldnames column_name records).
Proof.
  unfold trimmed_values.
  induction records as [|row records IH]; intros acc Hrows.
  - simpl. by rewrite app_nil_r.
  - apply Forall_cons in Hrows as [Hrow Hrows].
    destruct (decide (row = [])) as [->|Hne].
    + rewrite load_loop_blank. simpl column_values. eauto.
    + destruct Hrow as [?|[v Hv]]; [done|].
      rewrite load_loop_record by done.
      assert (column_values fieldnames column_name (row :: records)
              = v :: column_values fieldnames column_name records) as ->.
      { destruct row; [done|]. simpl. by rewrite Hv. }
      rewrite Hv. cbn [map]. rewrite filter_cons.
      destruct (truthy (strip v)) eqn:Ht.
      * apply truthy_true in Ht. rewrite decide_True by done.
        rewrite IH by done. by rewrite <- app_assoc.
      * assert (strip v = EmptyString) as Hs by (by destruct (strip v)).
        rewrite decide_False by (by rewrite Hs; intros []).
        by apply IH.
Qed.

End LoaderFacts.

(** ** The dict of a record *)

Section DictReaderFacts.

Implicit Types (d : gmap string (option string)) (k : string).

Lemma lookup_foldl_restval d k (keys : list string) :
  foldl (λ d key, <[key := None]> d) d keys !! k
  = if decide (k ∈ keys) then Some None else d !! k.
Proof.
  induction keys as [|key keys IH] in d |-*; simpl; [done|].
  rewrite IH. destruct (decide (k ∈ keys)) as [Hin|Hnin].
  - rewrite decide_True; [done | by right].
  - destruct (decide (k = key)) as [->|Hne].
    + rewrite decide_True by left. by rewrite lookup_insert_eq.
    + rewrite decide_False by (by intros [?|?]%elem_of_cons).
      by rewrite lookup_insert_ne.
Qed.

Lemma lookup_foldl_fields_notin d k (fields : list (string * string)) :
  k ∉ fields.*1 →
  foldl (λ d kv, <[kv.1 := Some kv.2]> d) d fields !! k = d !! k.
Proof.
  induction fields as [|[key v] fields IH] in d |-*; simpl; [done|].
  intros Hk%not_elem_of_cons. destruct Hk as [Hne Hk].
  rewrite IH by done. by rewrite lookup_insert_ne.
Qed.

Lemma lookup_foldl_fields_in d k (fields : list (string * string)) :
  k ∈ fields.*1 →
  ∃ v, foldl (λ d kv, <[kv.1 := Some kv.2]> d) d fields !! k = Some (Some v).
Proof.
  induction fields as [|[key v] fields IH] in d |-*; simpl.
  - by intros ?%elem_of_nil.
  - intros Hk. destruct (decide (k ∈ fields.*1)) as [Hin|Hnin]; [eauto|].
    apply elem_of_cons in Hk as [->|?]; [|done].
    exists v. rewrite lookup_foldl_fields_notin by done.
    by rewrite lookup_insert_eq.
Qed.

Lemma zip_keys (fieldnames row : list string) :
  (zip fieldnames row).*1 = take (length row) fieldnames.
Proof.
  induction fieldnames as [|f fieldnames IH] in row |-*;
    destruct row as [|r row]; simpl; [done..|].
  by rewrite IH.
Qed.

(** Every field name is a key of the dict of a record, so the default of
    [row.get] is never the value that is returned. *)
Lemma row_dict_has_column (fieldnames row : list string) k :
  k ∈ fieldnames → is_Some (DictReader.row_dict fieldnames row !! k).
Proof.
  intros Hk. unfold DictReader.row_dict. rewrite lookup_foldl_restval.
  destruct (decide (k ∈ drop (length row) fieldnames)) as [|Hnin]; [by eexists|].
  rewrite <- (take_drop (length row) fieldnames) in Hk.
  apply elem_of_app in Hk as [Hk|Hk]; [|done].
  destruct (lookup_foldl_fields_in ∅ k (zip fieldnames row)) as [v Hv].
  { by rewrite zip_keys. }
  rewrite Hv. by eexists.
Qed.

(** With distinct field names, the column at position [i] of the header
    holds the [i]-th field of the record, and [None] when the record has no
    [i]-th field. *)
Lemma row_dict_position (fieldnames row : list string) (i : nat) k :
  NoDup fieldnames →
  fieldnames !! i = Some k →
  DictReader.row_dict fieldnames row !! k = Some (row !! i).
Proof.
  intros Hnodup Hi. unfold DictReader.row_dict. rewrite lookup_foldl_restval.
  destruct (decide (k ∈ drop (length row) fieldnames)) as [Hin|Hnin].
  - apply list_elem_of_lookup in Hin as [j Hj].
    rewrite lookup_drop in Hj.
    rewrite (NoDup_lookup _ _ _ _ Hnodup Hi Hj).
    by rewrite lookup_ge_None_2 by lia.
  - assert (i < length row)%nat as Hlt.
    { destruct (decide (i < length row)%nat) as [|Hge]; [done|].
      exfalso. apply Hnin, list_elem_of_lookup.
      exists (i - length row)%nat. rewrite lookup_drop.
      by replace (length row + (i - length row))%nat with i by lia. }
    destruct (lookup_lt_is_Some_2 _ _ Hlt) as [v Hv]. rewrite Hv.
    clear Hnin Hlt.
    generalize (∅ : gmap string (option string)) as d.
    induction fieldnames as [|f fieldnames IH] in row, i, Hnodup, Hi, Hv |-*;
      intros d; [done|].
    destruct row as [|r row]; [done|].
    apply NoDup_cons in Hnodup as [Hf Hnodup].
    destruct i as [|i]; simpl in *.
    + simplify_eq. rewrite lookup_foldl_fields_notin.
      * by rewrite lookup_insert_eq.
      * rewrite zip_keys. by intros ?%subseteq_take.
    + by apply (IH row i).
Qed.

Lemma row_get_position (fieldnames row : list string) (i : nat) k :
  NoDup fieldnames →
  fieldnames !! i = Some k →
  row_get (DictReader.row_dict fieldnames row) k = row !! i.
Proof.
  intros Hnodup Hi. unfold row_get.
  by rewrite (row_dict_position _ _ i).
Qed.

(** So a record is short of the column exactly when it is not blank and
    has no field at the column's position. *)
Lemma no_short_row_position (fieldnames : list string) (i : nat) k
    (records : list (list string)) :
  NoDup fieldnames →
  fieldnames !! i = Some k →
  no_short_row fieldnames k records
  ↔ Forall (λ row, row = [] ∨ (i < length row)%nat) records.
Proof.
  intros Hnodup Hi. unfold no_short_row. apply Forall_proper; [|done].
  intros row. rewrite (row_get_position _ _ i) by done.
  by rewrite lookup_lt_is_Some.
Qed.

End DictReaderFacts.

Section MainFacts.

Variable E : Env.

(** A load that returns has consumed a header that has the column and
    has left the world as it was. *)
Lemma load_hosts_normal (column_name : string) (rows : list (list string))
    (w w' : World) (hosts : list string) :
  load_hosts E column_name rows w = (Normal hosts, w') →
  w' = w ∧ ∃ fieldnames records,
    rows = fieldnames :: records ∧ column_name ∈ fieldnames
    ∧ load_loop fieldnames column_name records [] = Returned hosts.
Proof.
  unfold load_hosts. destruct rows as [|fieldnames records]; [done|].
  simpl. case_bool_decide as Hcol.
  - destruct (load_loop _ _ _ _) as [hs|e] eqn:Hloop; simpl; [|done].
    unfold ret. intros [= -> ->]. eauto 10.
  - unfold mbind, M_bind, bind, print, sys_exit. done.
Qed.

Lemma load_hosts_loaded (column_name : string) (rows : list (list string))
    (w w' : World) (hosts : list string) :
  load_hosts E column_name rows w = (Normal hosts, w') →
  Forall loaded_host hosts.
Proof.
  intros (_ & fieldnames & records & _ & _ & Hloop)%load_hosts_normal.
  by apply (load_loop_loaded _ _ _ _ _ Hloop).
Qed.

Lemma load_hosts_lookup (column_name : string) (rows : list (list string))
    (w w' : World) (hosts : list string) (task : nat) (h : string) :
  load_hosts E column_name rows w = (Normal hosts, w') →
  hosts !! task = Some h → loaded_host h.
Proof.
  intros Hall%load_hosts_loaded Hh. rewrite Forall_lookup in Hall. eauto.
Qed.

Lemma load_hosts_returned (column_name : string) (fieldnames : list string)
    (records : list (list string)) (hosts : list string) (w : World) :
  column_name ∈ fieldnames →
  load_loop fieldnames column_name records [] = Returned hosts →
  load_hosts E column_name (fieldnames :: records) w = (Normal hosts, w).
Proof.
  intros Hcol Hloop. unfold load_hosts. simpl.
  rewrite bool_decide_true by done. by rewrite Hloop.
Qed.

(** A run that loads at least one host returns normally and leaves at
    the output path exactly the report of this run. *)
Lemma main_report (csv_path column_name out_path : string)
    (rows : list (list string)) (w w' : World) (hosts : list string) :
  load_hosts E column_name rows w = (Normal hosts, w') →
  hosts ≠ [] →
  main E csv_path column_name out_path rows w
  = (Normal tt,
     {| files := <[Path.str out_path := report_text E csv_path column_name hosts]>
                   (files w);
        console := console w +:+ ("Done. Results saved to " +:+ Path.str out_path)
                     +:+ nl |}).
Proof.
  intros Hload Hne.
  destruct (load_hosts_normal _ _ _ _ _ Hload) as [-> _].
  unfold main. erewrite bind_normal by exact Hload.
  rewrite bool_decide_false by done.
  erewrite bind_normal by reflexivity. simpl.
  erewrite bind_normal by apply write_header_insert.
  erewrite bind_normal by apply for_each_report_insert.
  unfold print, report_text, completed. done.
Qed.

(** A run that loads no host says so and touches no file. *)
Lemma main_no_hosts (csv_path column_name out_path : string)
    (rows : list (list string)) (w w' : World) :
  load_hosts E column_name rows w = (Normal [], w') →
  main E csv_path column_name out_path rows w
  = (Normal tt,
     {| files := files w;
        console := console w +:+ "No hosts found in that column." +:+ nl |}).
Proof.
  intros Hload.
  destruct (load_hosts_normal _ _ _ _ _ Hload) as [-> _].
  unfold main. erewrite bind_normal by exact Hload. done.
Qed.

(** A run that cannot load ends the way the loader ended. *)
Lemma main_load_uncaught (csv_path column_name out_path : string)
    (rows : list (list string)) (w w' : World) (e : exn) :
  load_hosts E column_name rows w = (Uncaught e, w') →
  main E csv_path column_name out_path rows w = (Uncaught e, w').
Proof. intros Hload. unfold main. by erewrite bind_uncaught. Qed.

End MainFacts.

(** ** What a loaded host is asked *)

Section QueryFacts.

Variable E : Env.

Lemma make_nslookup_cmd_loaded (h : string) :
  loaded_host h →
  make_nslookup_cmd h = Returned (Some ["nslookup"; NSLOOKUP_TYPE; h]).
Proof.
  intros [Hstrip Hne]. unfold make_nslookup_cmd. rewrite Hstrip.
  by destruct h.
Qed.

Lemma run_query_loaded (task : nat) (h : string) :
  loaded_host h →
  run_query E task h
  = Returned (h, STATUS_OK,
              match subprocess_run E task ["nslookup"; NSLOOKUP_TYPE; h] with
              | Completed rc stdout stderr =>
                  completed_text rc (strip stdout) (strip stderr)
              | TimeoutExpired => timeout_message
              | Failed e => "ERROR: " +:+ exn_msg e
              end).
Proof.
  intros Hh. unfold run_query. by rewrite make_nslookup_cmd_loaded.
Qed.

(** Where no record is short and the column holds a value, the report
    has one block for each non-empty trimmed value of the column, under
    the same host names, and the header counts them. *)
Lemma main_blocks_match_column (csv_path column_name out_path : string)
    (fieldnames : list string) (records : list (list string)) (w : World) :
  let values := trimmed_values fieldnames column_name records in
  column_name ∈ fieldnames →
  no_short_row fieldnames column_name records →
  values ≠ [] →
  ∃ w', main E csv_path column_name out_path (fieldnames :: records) w
        = (Normal tt, w')
    ∧ files w' !! Path.str out_path
      = Some (header_text E (Path.name csv_path) column_name (length values)
              +:+ concat (map block_text (completed E values)))
    ∧ length (map block_text (completed E values)) = length values
    ∧ map block_host (completed E values) ≡ₚ values.
Proof.
  intros values Hcol Hrows Hne.
  assert (load_hosts E column_name (fieldnames :: records) w
          = (Normal values, w)) as Hload.
  { apply load_hosts_returned; [done|]. by rewrite load_loop_values. }
  eexists. split; [by apply (main_report _ _ _ _ _ _ _ _ Hload)|].
  simpl. rewrite lookup_insert_eq. split; [done|].
  split; [by rewrite length_map, length_completed|].
  apply block_hosts_completed.
Qed.

(** Where no record is short and the column holds no value, the run
    says so and touches no file. *)
Lemma main_no_values (csv_path column_name out_path : string)
    (fieldnames : list string) (records : list (list string)) (w : World) :
  column_name ∈ fieldnames →
  no_short_row fieldnames column_name records →
  trimmed_values fieldnames column_name records = [] →
  main E csv_path column_name out_path (fieldnames :: records) w
  = (Normal tt,
     {| files := files w;
        console := console w +:+ "No hosts found in that column." +:+ nl |}).
Proof.
  intros Hcol Hrows Hnil. apply (main_no_hosts _ _ _ _ _ _ w).
  apply load_hosts_returned; [done|].
  by rewrite load_loop_values, Hnil.
Qed.

End QueryFacts.

(** ** The model at work *)

(** The example of the specification: the header [CN,Issuer], the rows
    [(a.example.com, X)], [(, Y)] and [(b.example.com, Z)], the column
    [CN].  The second task runs into the timeout and completes first. *)
Example report_of_the_example :
  main E0 "data/in.csv" "CN" "out.txt" spec_rows w0
  = (Normal tt,
     {| files :=
          {[ "out.txt" :=
               "# csv_nslookup.py results" +:+ nl
               +:+ "# source CSV: in.csv" +:+ nl
               +:+ "# column: CN" +:+ nl
               +:+ "# date: 2024-01-01T00:00:00Z" +:+ nl
               +:+ "# total hosts: 2" +:+ nl +:+ nl
               +:+ "--- b.example.com ---" +:+ nl
               +:+ "ERROR: timeout after 6s" +:+ nl +:+ nl
               +:+ "--- a.example.com ---" +:+ nl
               +:+ "RETURN_CODE=0" +:+ nl
               +:+ "STDOUT:" +:+ nl
               +:+ "Server: 1.1.1.1" +:+ nl
               +:+ "STDERR:" +:+ nl +:+ nl +:+ nl ]};
        console := "Done. Results saved to out.txt" +:+ nl |}).
Proof. vm_compute. reflexivity. Qed.

Example path_name_examples :
  Path.name "data/in.csv" = "in.csv" ∧ Path.name "in.csv" = "in.csv"
  ∧ Path.name "/tmp/x/" = "x" ∧ Path.str "a//b/./c/" = "a/b/c".
Proof. by vm_compute. Qed.

(** Any number of arguments but three gets the usage line and the exit
    status 1. *)
Lemma script_usage (E : Env) (argv : list string) (rows : list (list string))
    (w : World) :
  length argv ≠ 4%nat →
  script E argv rows w
  = (SysExit 1,
     {| files := files w;
        console := console w
          +:+ "Usage: python3 csv_nslookup.py input.csv ColumnName output.txt"
          +:+ nl |}).
Proof.
  intros Hlen. unfold script.
  destruct argv as [|a0 [|a1 [|a2 [|a3 [|a4 argv]]]]]; done.
Qed.

(** * The claims *)

(** C1, at the input where the code fails it.  The header has the column
    [Issuer] and the column has one non-empty trimmed value, [X]; the
    second record stops before that column, [strip] is called on [None],
    and the run ends with the uncaught [AttributeError], exit status 1,
    with no file touched: the report has no block where the column has one
    value. *)
Theorem short_row_leaves_no_block (E : Env) (w : World) :
  let fieldnames := ["CN"; "Issuer"] in
  let records := [["a.example.com"; "X"]; ["b.example.com"]] in
  "Issuer" ∈ fieldnames
  ∧ trimmed_values fieldnames "Issuer" records = ["X"]
  ∧ main E "crt.csv" "Issuer" "out.txt" (fieldnames :: records) w
    = (Uncaught AttributeError_strip, w)
  ∧ exit_status (main E "crt.csv" "Issuer" "out.txt" (fieldnames :: records) w).1
    = 1.
Proof.
  assert (main E "crt.csv" "Issuer" "out.txt"
            [["CN"; "Issuer"]; ["a.example.com"; "X"]; ["b.example.com"]] w
          = (Uncaught AttributeError_strip, w)) as Hmain
    by (apply main_load_uncaught; vm_compute; reflexivity).
  simpl. split; [apply (bool_decide_unpack _); vm_compute; exact I|].
  split; [vm_compute; reflexivity|]. split; [exact Hmain|].
  by rewrite Hmain.
Qed.

(** C2. When the header row does not contain the named column, the run
    ends by [sys.exit(2)], so the exit status is 2; it has printed the
    error message, which lists the available columns, and has left every
    file, the output path included, as it was. *)
Theorem missing_column_exits_2 (E : Env) (csv_path column_name out_path : string)
    (fieldnames : list string) (records : list (list string)) (w : World) :
  column_name ∉ fieldnames →
  ∃ w', main E csv_path column_name out_path (fieldnames :: records) w
        = (SysExit 2, w')
    ∧ exit_status (main E csv_path column_name out_path (fieldnames :: records) w).1 = 2
    ∧ files w' = files w
    ∧ console w'
      = console w +:+ "ERROR: column '" +:+ column_name
          +:+ "' not found. Available columns: ["
          +:+ join ", " (map (repr_str E) fieldnames) +:+ "]" +:+ nl.
Proof.
  intros Hcol.
  assert (main E csv_path column_name out_path (fieldnames :: records) w
          = (SysExit 2,
             {| files := files w;
                console := console w +:+ column_not_found E column_name fieldnames
                             +:+ nl |})) as Hmain.
  { unfold main. apply bind_sys_exit. unfold load_hosts. simpl.
    by rewrite bool_decide_false. }
  eexists. split; [exact Hmain|]. rewrite Hmain. simpl.
  repeat split. unfold column_not_found, repr_list.
  by rewrite !append_assoc.
Qed.

Lemma missing_column_exits_2_witness :
  ("Nope" ∉ ["CN"; "Issuer"])
  ∧ ∃ w', main E0 "data/in.csv" "Nope" "out.txt" spec_rows w0 = (SysExit 2, w')
    ∧ exit_status (main E0 "data/in.csv" "Nope" "out.txt" spec_rows w0).1 = 2
    ∧ files w' = files w0
    ∧ console w'
      = console w0 +:+ "ERROR: column '" +:+ "Nope"
          +:+ "' not found. Available columns: ["
          +:+ join ", " (map (repr_str E0) ["CN"; "Issuer"]) +:+ "]" +:+ nl.
Proof.
  assert ("Nope" ∉ ["CN"; "Issuer"]) as Hcol
    by (apply (bool_decide_unpack _); vm_compute; exact I).
  split; [exact Hcol|].
  exact (missing_column_exits_2 E0 "data/in.csv" "Nope" "out.txt"
           ["CN"; "Issuer"] (tail spec_rows) w0 Hcol).
Defined.

(** C3, as stated, fails: on the CSV of the specification's own example
    the second row has an empty [CN], and the report has the two blocks of
    the other rows and no [EMPTY_HOSTNAME] in it. *)
Lemma empty_hostname_not_recorded : ¬ empty_hostname_recorded.
Proof.
  intros Hclaim.
  destruct (Hclaim E0 "data/in.csv" "CN" "out.txt" ["CN"; "Issuer"]
              (tail spec_rows) [EmptyString; "Y"] EmptyString w0) as (content & Hfile & Hhas).
  - apply (bool_decide_unpack _); vm_compute; exact I.
  - apply (bool_decide_unpack _); vm_compute; exact I.
  - vm_compute; reflexivity.
  - reflexivity.
  - vm_compute in Hfile. injection Hfile as <-.
    vm_compute in Hhas. discriminate.
Qed.

(** C3, amended.  A row whose value in the column is empty after trimming
    is passed over by the loader: the run on the input with the row is the
    run on the input without it, in its result, its files and its console,
    so that the row has no block and leaves no trace in the report. *)
Theorem empty_value_row_is_skipped (E : Env)
    (csv_path column_name out_path : string) (fieldnames : list string)
    (rows1 rows2 : list (list string)) (row : list string) (v : string)
    (w : World) :
  row_get (DictReader.row_dict fieldnames row) column_name = Some v →
  strip v = EmptyString →
  main E csv_path column_name out_path (fieldnames :: rows1 ++ row :: rows2) w
  = main E csv_path column_name out_path (fieldnames :: rows1 ++ rows2) w.
Proof.
  intros Hget Hv. unfold main.
  assert (load_hosts E column_name (fieldnames :: rows1 ++ row :: rows2)
          = load_hosts E column_name (fieldnames :: rows1 ++ rows2)) as ->; [|done].
  unfold load_hosts. simpl.
  by rewrite (load_loop_skips _ _ _ _ _ _ _ Hget Hv).
Qed.

Lemma empty_value_row_is_skipped_witness :
  row_get (DictReader.row_dict ["CN"; "Issuer"] ["  "; "Y"]) "CN" = Some "  "
  ∧ strip "  " = EmptyString
  ∧ main E0 "data/in.csv" "CN" "out.txt"
      (["CN"; "Issuer"] :: [["a.example.com"; "X"]] ++ ["  "; "Y"]
         :: [["b.example.com"; "Z"]]) w0
    = main E0 "data/in.csv" "CN" "out.txt"
        (["CN"; "Issuer"] :: [["a.example.com"; "X"]]
           ++ [["b.example.com"; "Z"]]) w0.
Proof.
  assert (row_get (DictReader.row_dict ["CN"; "Issuer"] ["  "; "Y"]) "CN"
          = Some "  ") as Hget by (vm_compute; reflexivity).
  assert (strip "  " = EmptyString) as Hv by reflexivity.
  split; [exact Hget|]. split; [exact Hv|].
  exact (empty_value_row_is_skipped E0 "data/in.csv" "CN" "out.txt"
           ["CN"; "Issuer"] [["a.example.com"; "X"]] [["b.example.com"; "Z"]]
           ["  "; "Y"] "  " w0 Hget Hv).
Defined.

(** C4. A loaded host whose query runs into the timeout gets the report
    block made of its delimiter line, the timeout message and the blank
    line; the message holds no [RETURN_CODE], [STDOUT] or [STDERR] text. *)
Theorem timed_out_host_block (E : Env) (csv_path column_name out_path : string)
    (rows : list (list string)) (w w' : World) (hosts : list string)
    (task : nat) (h : string) :
  load_hosts E column_name rows w = (Normal hosts, w') →
  hosts !! task = Some h →
  subprocess_run E task ["nslookup"; NSLOOKUP_TYPE; h] = TimeoutExpired →
  run_query E task h = Returned (h, "OK", timeout_message)
  ∧ timeout_message = "ERROR: timeout after 6s"
  ∧ block_text (submit E task h, h)
    = "--- " +:+ h +:+ " ---" +:+ nl +:+ "ERROR: timeout after 6s" +:+ nl +:+ nl
  ∧ (∃ w'' before after,
        main E csv_path column_name out_path rows w = (Normal tt, w'')
        ∧ files w'' !! Path.str out_path
          = Some (header_text E (Path.name csv_path) column_name (length hosts)
                  +:+ concat before
                  +:+ block_text (submit E task h, h)
                  +:+ concat after))
  ∧ contains "RETURN_CODE" timeout_message = false
  ∧ contains "STDOUT" timeout_message = false
  ∧ contains "STDERR" timeout_message = false.
Proof.
  intros Hload Hh Hrun.
  pose proof (load_hosts_lookup _ _ _ _ _ _ _ _ Hload Hh) as Hloaded.
  assert (run_query E task h = Returned (h, "OK", timeout_message)) as Hq.
  { rewrite run_query_loaded by done. by rewrite Hrun. }
  split; [done|]. split; [done|]. split.
  { unfold block_text, fut_outcome, submit. simpl. by rewrite Hq. }
  split; [|done].
  assert (hosts ≠ []) as Hne by (intros ->; done).
  destruct (list_elem_of_split _ _ (submit_in_completed E hosts task h Hh))
    as (l1 & l2 & Hsplit).
  eexists _, (map block_text l1), (map block_text l2).
  split; [by apply (main_report _ _ _ _ _ _ _ _ Hload)|].
  simpl. rewrite lookup_insert_eq. unfold report_text.
  rewrite Hsplit, map_app, concat_app. done.
Qed.

Lemma timed_out_host_block_witness :
  load_hosts E0 "CN" spec_rows w0 = (Normal hosts0, w0)
  ∧ hosts0 !! 1%nat = Some "b.example.com"
  ∧ subprocess_run E0 1 ["nslookup"; NSLOOKUP_TYPE; "b.example.com"] = TimeoutExpired
  ∧ block_text (submit E0 1 "b.example.com", "b.example.com")
    = "--- " +:+ "b.example.com" +:+ " ---" +:+ nl
        +:+ "ERROR: timeout after 6s" +:+ nl +:+ nl.
Proof.
  assert (load_hosts E0 "CN" spec_rows w0 = (Normal hosts0, w0)) as Hload
    by (vm_compute; reflexivity).
  assert (hosts0 !! 1%nat = Some "b.example.com") as Hh by reflexivity.
  assert (subprocess_run E0 1 ["nslookup"; NSLOOKUP_TYPE; "b.example.com"]
          = TimeoutExpired) as Hrun by reflexivity.
  split; [exact Hload|]. split; [exact Hh|]. split; [exact Hrun|].
  exact (proj1 (proj2 (proj2
    (timed_out_host_block E0 "data/in.csv" "CN" "out.txt" spec_rows w0 w0
       hosts0 1 "b.example.com" Hload Hh Hrun)))).
Defined.

(** C5. Whatever the child processes do, a run that has loaded its hosts
    returns normally; the report holds one block for every submitted host,
    in some order; a query that failed with an exception has its error
    text in the block of its own host; and the blocks of the other hosts do
    not depend on what that query did. *)
Theorem query_failure_stays_in_its_block (E : Env)
    (csv_path column_name out_path : string) (rows : list (list string))
    (w w' : World) (hosts : list string) :
  load_hosts E column_name rows w = (Normal hosts, w') →
  hosts ≠ [] →
  (∃ w'', main E csv_path column_name out_path rows w = (Normal tt, w'')
     ∧ files w'' !! Path.str out_path
       = Some (header_text E (Path.name csv_path) column_name (length hosts)
               +:+ concat (map block_text (completed E hosts))))
  ∧ exit_status (main E csv_path column_name out_path rows w).1 = 0
  ∧ map block_text (completed E hosts) ≡ₚ map block_text (submit_all E hosts)
  ∧ (∀ task h, hosts !! task = Some h →
       block_text (submit E task h, h) ∈ map block_text (completed E hosts))
  ∧ (∀ task h e, hosts !! task = Some h →
       subprocess_run E task ["nslookup"; NSLOOKUP_TYPE; h] = Failed e →
       block_text (submit E task h, h) = block h ("ERROR: " +:+ exn_msg e))
  ∧ (∀ (E' : Env) (failed : nat),
       (∀ task cmd, task ≠ failed →
          subprocess_run E' task cmd = subprocess_run E task cmd) →
       ∀ task h, task ≠ failed →
         block_text (submit E' task h, h) = block_text (submit E task h, h)).
Proof.
  intros Hload Hne.
  pose proof (main_report E csv_path column_name out_path _ _ _ _ Hload Hne)
    as Hmain.
  split.
  { eexists. split; [exact Hmain|]. simpl. by rewrite lookup_insert_eq. }
  split; [by rewrite Hmain|].
  split.
  { apply Permutation_map. apply as_completed_perm. }
  split.
  { intros task h Hh. apply list_elem_of_fmap_2.
    by apply submit_in_completed. }
  split.
  { intros task h e Hh Hrun.
    pose proof (load_hosts_lookup _ _ _ _ _ _ _ _ Hload Hh) as Hloaded.
    unfold block_text, fut_outcome, submit. simpl.
    rewrite run_query_loaded by done. by rewrite Hrun. }
  intros E' failed Hsame task h Htask.
  unfold block_text, fut_outcome, submit, run_query. simpl.
  destruct (make_nslookup_cmd h) as [[cmd|]|e]; try done.
  by rewrite Hsame.
Qed.

Lemma query_failure_stays_in_its_block_witness :
  load_hosts E0 "Issuer" spec_rows w0 = (Normal ["X"; "Y"; "Z"], w0)
  ∧ exit_status (main E0 "data/in.csv" "Issuer" "out.txt" spec_rows w0).1 = 0
  ∧ block_text (submit E0 2 "Z", "Z")
    = block "Z" "ERROR: [Errno 2] No such file or directory: 'nslookup'".
Proof.
  assert (load_hosts E0 "Issuer" spec_rows w0 = (Normal ["X"; "Y"; "Z"], w0))
    as Hload by (vm_compute; reflexivity).
  assert (["X"; "Y"; "Z"] ≠ @nil string) as Hne by discriminate.
  pose proof (query_failure_stays_in_its_block E0 "data/in.csv" "Issuer"
                "out.txt" spec_rows w0 w0 ["X"; "Y"; "Z"] Hload Hne)
    as (_ & Hexit & _ & _ & Hfailed & _).
  split; [exact Hload|]. split; [exact Hexit|].
  exact (Hfailed 2%nat "Z" _ eq_refl eq_refl).
Defined.

(** C6. Whatever an earlier run (or anything else) has left at the output
    path, a run that loads at least one host leaves there its own header
    and its own blocks and nothing else; the total in the header is the
    number of hosts of this run.  The other files are as they were. *)
Theorem second_run_overwrites (E1 E2 : Env)
    (csv1 csv2 column1 column2 out_path : string)
    (rows1 rows2 : list (list string)) (w w1 w1' : World) (c1 : ctl unit)
    (hosts2 : list string) :
  main E1 csv1 column1 out_path rows1 w = (c1, w1) →
  load_hosts E2 column2 rows2 w1 = (Normal hosts2, w1') →
  hosts2 ≠ [] →
  ∃ w2, main E2 csv2 column2 out_path rows2 w1 = (Normal tt, w2)
    ∧ files w2 !! Path.str out_path
      = Some (header_text E2 (Path.name csv2) column2 (length hosts2)
              +:+ concat (map block_text (completed E2 hosts2)))
    ∧ length (map block_text (completed E2 hosts2)) = length hosts2
    ∧ ∀ p, p ≠ Path.str out_path → files w2 !! p = files w1 !! p.
Proof.
  intros _ Hload Hne.
  eexists. split; [by apply (main_report _ _ _ _ _ _ _ _ Hload)|].
  simpl. rewrite lookup_insert_eq. split; [done|].
  split; [by rewrite length_map, length_completed|].
  intros p Hp. by rewrite lookup_insert_ne.
Qed.

Lemma second_run_overwrites_witness :
  ∃ w1 w2,
    main E0 "data/in.csv" "Issuer" "out.txt" spec_rows w0 = (Normal tt, w1)
    ∧ load_hosts E0 "CN" spec_rows w1 = (Normal hosts0, w1)
    ∧ main E0 "data/in.csv" "CN" "out.txt" spec_rows w1 = (Normal tt, w2)
    ∧ files w2 !! Path.str "out.txt"
      = Some (header_text E0 (Path.name "data/in.csv") "CN" 2
              +:+ concat (map block_text (completed E0 hosts0))).
Proof.
  set (w1 := (main E0 "data/in.csv" "Issuer" "out.txt" spec_rows w0).2).
  assert (main E0 "data/in.csv" "Issuer" "out.txt" spec_rows w0 = (Normal tt, w1))
    as Hfirst by (vm_compute; reflexivity).
  assert (load_hosts E0 "CN" spec_rows w1 = (Normal hosts0, w1)) as Hload
    by (vm_compute; reflexivity).
  assert (hosts0 ≠ []) as Hne by discriminate.
  destruct (second_run_overwrites E0 E0 "data/in.csv" "data/in.csv" "Issuer" "CN"
              "out.txt" spec_rows spec_rows w0 w1 w1 (Normal tt) hosts0
              Hfirst Hload Hne) as (w2 & Hmain & Hfile & _).
  exists w1, w2. split; [exact Hfirst|]. split; [exact Hload|].
  split; [exact Hmain|]. exact Hfile.
Defined.

(** C7. A run that loads at least one host leaves a file that starts
    with the header: the title line, the name of the CSV file, the column
    name, the UTC time stamp and the number of hosts, then an empty line.
    The blocks, one per host, follow it, and nothing else does. *)
Theorem header_comes_first (E : Env) (csv_path column_name out_path : string)
    (rows : list (list string)) (w w' : World) (hosts : list string) :
  load_hosts E column_name rows w = (Normal hosts, w') →
  hosts ≠ [] →
  ∃ w'' blocks,
    main E csv_path column_name out_path rows w = (Normal tt, w'')
    ∧ files w'' !! Path.str out_path
      = Some ("# csv_nslookup.py results" +:+ nl
              +:+ "# source CSV: " +:+ Path.name csv_path +:+ nl
              +:+ "# column: " +:+ column_name +:+ nl
              +:+ "# date: " +:+ utcnow_isoformat E +:+ "Z" +:+ nl
              +:+ "# total hosts: " +:+ str_of_nat (length hosts) +:+ nl +:+ nl
              +:+ concat blocks)
    ∧ blocks = map block_text (completed E hosts)
    ∧ length blocks = length hosts
    ∧ Forall (λ b, ∃ hostname output, b = block hostname output) blocks.
Proof.
  intros Hload Hne.
  exists (main E csv_path column_name out_path rows w).2,
         (map block_text (completed E hosts)).
  rewrite (main_report _ _ _ _ _ _ _ _ Hload Hne). simpl.
  split; [done|]. split.
  { rewrite lookup_insert_eq. unfold report_text, header_text.
    by rewrite !append_assoc. }
  split; [done|].
  split; [by rewrite length_map, length_completed|].
  apply Forall_fmap, Forall_forall. intros entry _. unfold block_text. simpl.
  destruct (fut_outcome entry) as [[hostname status] output]. eauto.
Qed.

Lemma header_comes_first_witness :
  load_hosts E0 "CN" spec_rows w0 = (Normal hosts0, w0)
  ∧ ∃ w'' blocks,
      main E0 "data/in.csv" "CN" "out.txt" spec_rows w0 = (Normal tt, w'')
      ∧ files w'' !! Path.str "out.txt"
        = Some ("# csv_nslookup.py results" +:+ nl
                +:+ "# source CSV: " +:+ Path.name "data/in.csv" +:+ nl
                +:+ "# column: " +:+ "CN" +:+ nl
                +:+ "# date: " +:+ utcnow_isoformat E0 +:+ "Z" +:+ nl
                +:+ "# total hosts: " +:+ str_of_nat (length hosts0) +:+ nl +:+ nl
                +:+ concat blocks)
      ∧ blocks = map block_text (completed E0 hosts0)
      ∧ length blocks = length hosts0
      ∧ Forall (λ b, ∃ hostname output, b = block hostname output) blocks.
Proof.
  assert (load_hosts E0 "CN" spec_rows w0 = (Normal hosts0, w0)) as Hload
    by (vm_compute; reflexivity).
  assert (hosts0 ≠ []) as Hne by discriminate.
  split; [exact Hload|].
  exact (header_comes_first E0 "data/in.csv" "CN" "out.txt" spec_rows w0 w0
           hosts0 Hload Hne).
Defined.

(** C8, at the input where the code fails it.  The column [CN] holds the
    hosts [a.example.com] and [b.example.com]; the record between them
    stops before the column, and the run ends with the uncaught
    [AttributeError] before the output file is opened: no host appears in
    any output. *)
Theorem short_row_leaves_no_host (E : Env) (w : World) :
  let fieldnames := ["Issuer"; "CN"] in
  let records := [["X"; "a.example.com"]; ["Y"]; ["Z"; "b.example.com"]] in
  "CN" ∈ fieldnames
  ∧ trimmed_values fieldnames "CN" records = ["a.example.com"; "b.example.com"]
  ∧ ∃ w', main E "crt.csv" "CN" "out.txt" (fieldnames :: records) w
          = (Uncaught AttributeError_strip, w')
      ∧ files w' = files w.
Proof.
  simpl. split; [apply (bool_decide_unpack _); vm_compute; exact I|].
  split; [vm_compute; reflexivity|].
  exists w. split; [|done].
  apply main_load_uncaught. vm_compute. reflexivity.
Qed.

(** C9, at the input where the code fails it.  The header has the column
    [Issuer] and no record has a value in it, the only record being too
    short; the run prints nothing and ends with the uncaught
    [AttributeError], exit status 1, where the message about no hosts and
    the status 0 were due. *)
Theorem short_row_no_hosts_message (E : Env) (w : World) :
  let fieldnames := ["CN"; "Issuer"] in
  let records := [["a.example.com"]] in
  "Issuer" ∈ fieldnames
  ∧ trimmed_values fieldnames "Issuer" records = []
  ∧ ∃ c w', main E "crt.csv" "Issuer" "out.txt" (fieldnames :: records) w = (c, w')
      ∧ c = Uncaught AttributeError_strip
      ∧ exit_status c = 1
      ∧ console w' = console w.
Proof.
  simpl. split; [apply (bool_decide_unpack _); vm_compute; exact I|].
  split; [vm_compute; reflexivity|].
  exists (Uncaught AttributeError_strip), w.
  split; [|done].
  apply main_load_uncaught. vm_compute. reflexivity.
Qed.

(** C10. For a host of the loaded list, [make_nslookup_cmd] returns the
    [nslookup] command, so [run_query] neither takes its [EMPTY_HOSTNAME]
    branch nor raises, and the loop's [EXC] branch is not taken; the status
    is ["OK"] also after a timeout and after a caught exception, which show
    in the output text only. *)
Theorem loaded_host_status_ok (E : Env) (column_name : string)
    (rows : list (list string)) (w w' : World) (hosts : list string)
    (task : nat) (h : string) :
  load_hosts E column_name rows w = (Normal hosts, w') →
  h ∈ hosts →
  strip h = h ∧ h ≠ EmptyString
  ∧ make_nslookup_cmd h = Returned (Some ["nslookup"; "-type=TXT"; h])
  ∧ ∃ output,
      run_query E task h = Returned (h, "OK", output)
      ∧ fut_outcome (submit E task h, h) = (h, "OK", output)
      ∧ output
        = match subprocess_run E task ["nslookup"; "-type=TXT"; h] with
          | Completed rc stdout stderr =>
              completed_text rc (strip stdout) (strip stderr)
          | TimeoutExpired => "ERROR: timeout after 6s"
          | Failed e => "ERROR: " +:+ exn_msg e
          end.
Proof.
  intros Hload Hin.
  assert (loaded_host h) as Hloaded.
  { pose proof (load_hosts_loaded _ _ _ _ _ _ Hload) as Hall.
    rewrite Forall_forall in Hall. eauto. }
  destruct Hloaded as [Hstrip Hne].
  split; [done|]. split; [done|].
  split; [by apply make_nslookup_cmd_loaded|].
  eexists. split; [by apply run_query_loaded|].
  split; [|done].
  unfold fut_outcome, submit. simpl. by rewrite run_query_loaded.
Qed.

Lemma loaded_host_status_ok_witness :
  load_hosts E0 "CN" spec_rows w0 = (Normal hosts0, w0)
  ∧ "b.example.com" ∈ hosts0
  ∧ ∃ output, run_query E0 1 "b.example.com"
              = Returned ("b.example.com", "OK", output).
Proof.
  assert (load_hosts E0 "CN" spec_rows w0 = (Normal hosts0, w0)) as Hload
    by (vm_compute; reflexivity).
  assert ("b.example.com" ∈ hosts0) as Hin
    by (apply (bool_decide_unpack _); vm_compute; exact I).
  destruct (loaded_host_status_ok E0 "CN" spec_rows w0 w0 hosts0 1
              "b.example.com" Hload Hin) as (_ & _ & _ & output & Hq & _).
  split; [exact Hload|]. split; [exact Hin|]. by exists output.
Defined.

(** * Further properties *)

(** ** Helpers: the loader and the run, case by case *)

Section CaseFacts.

Variables (fieldnames : list string) (column_name : string).

Lemma no_short_row_cons (row : list string) (records : list (list string)) :
  no_short_row fieldnames column_name (row :: records)
  ↔ (row = [] ∨ is_Some (row_get (DictReader.row_dict fieldnames row) column_name))
    ∧ no_short_row fieldnames column_name records.
Proof. unfold no_short_row. by rewrite Forall_cons. Qed.

(** The loop raises on the first record that is short of the column. *)
Lemma load_loop_short (records : list (list string)) :
  ∀ acc,
    ¬ no_short_row fieldnames column_name records →
    load_loop fieldnames column_name records acc = Raised AttributeError_strip.
Proof.
  induction records as [|row records IH]; intros acc Hshort.
  - exfalso. apply Hshort. constructor.
  - rewrite no_short_row_cons in Hshort.
    destruct (decide (row = [])) as [->|Hrow].
    + rewrite load_loop_blank. apply IH. intros Hrest. apply Hshort. auto.
    + rewrite load_loop_record by done.
      destruct (row_get (DictReader.row_dict fieldnames row) column_name)
        as [v|] eqn:Hget; [|done].
      assert (¬ no_short_row fieldnames column_name records) as Hrest.
      { intros Hrest. apply Hshort. split; [right; by eexists | done]. }
      destruct (truthy (strip v)); by apply IH.
Qed.

Lemma no_short_row_dec (records : list (list string)) :
  Decision (no_short_row fieldnames column_name records).
Proof. unfold no_short_row. apply Forall_dec. intros row. apply _. Qed.

Lemma column_values_cells (i : nat) (records : list (list string)) :
  NoDup fieldnames →
  fieldnames !! i = Some column_name →
  column_values fieldnames column_name records = column_cells i records.
Proof.
  intros Hnodup Hi. induction records as [|row records IH]; [done|].
  destruct row as [|f row]; [done|].
  cbn [column_values column_cells].
  rewrite (row_get_position _ _ i) by done.
  by rewrite IH.
Qed.

End CaseFacts.

Section RunFacts.

Variable E : Env.

(** The part of [main] that writes the report, for any list of futures. *)
Lemma report_run (p f col msg : string) (n : nat)
    (entries : list (Future * string)) (w : World) :
  (open_w p ;; write_header E p f col n ;;
   for_each entries (report_result p) ;; print msg) w
  = (Normal tt,
     {| files := <[p := header_text E f col n +:+ concat (map block_text entries)]>
                   (files w);
        console := console w +:+ msg +:+ nl |}).
Proof.
  erewrite bind_normal by reflexivity. simpl.
  erewrite bind_normal by apply write_header_insert.
  erewrite bind_normal by apply for_each_report_insert.
  done.
Qed.

Lemma main_missing_column (csv_path column_name out_path : string)
    (fieldnames : list string) (records : list (list string)) (w : World) :
  column_name ∉ fieldnames →
  main E csv_path column_name out_path (fieldnames :: records) w
  = (SysExit 2,
     {| files := files w;
        console := console w +:+ column_not_found E column_name fieldnames
                     +:+ nl |}).
Proof.
  intros Hcol. unfold main. apply bind_sys_exit. unfold load_hosts. simpl.
  by rewrite bool_decide_false.
Qed.

Lemma main_empty_input (csv_path column_name out_path : string) (w : World) :
  main E csv_path column_name out_path [] w
  = (Uncaught TypeError_not_iterable, w).
Proof. by apply main_load_uncaught. Qed.

Lemma main_short_row (csv_path column_name out_path : string)
    (fieldnames : list string) (records : list (list string)) (w : World) :
  column_name ∈ fieldnames →
  ¬ no_short_row fieldnames column_name records →
  main E csv_path column_name out_path (fieldnames :: records) w
  = (Uncaught AttributeError_strip, w).
Proof.
  intros Hcol Hshort. apply main_load_uncaught. unfold load_hosts. simpl.
  rewrite bool_decide_true by done. by rewrite load_loop_short.
Qed.

Lemma main_cases (csv_path column_name out_path : string)
    (rows : list (list string)) (w : World) :
  main_case E csv_path column_name out_path rows w
    (main E csv_path column_name out_path rows w).
Proof.
  destruct rows as [|fieldnames records].
  { rewrite main_empty_input. by constructor. }
  destruct (decide (column_name ∈ fieldnames)) as [Hcol|Hcol].
  2: { rewrite main_missing_column by done. by econstructor. }
  destruct (no_short_row_dec fieldnames column_name records) as [Hrows|Hshort].
  2: { rewrite main_short_row by done. by econstructor. }
  destruct (decide (trimmed_values fieldnames column_name records = []))
    as [Hnil|Hne].
  - rewrite main_no_values by done. by econstructor.
  - assert (load_hosts E column_name (fieldnames :: records) w
            = (Normal (trimmed_values fieldnames column_name records), w))
      as Hload.
    { apply load_hosts_returned; [done|]. by rewrite load_loop_values. }
    rewrite (main_report _ _ _ _ _ _ _ _ Hload Hne). by econstructor.
Qed.

End RunFacts.

(** ** The command line and the exit status *)

(** X1. Called with any number of arguments but three, the script prints
    the usage line and exits with status 1; it runs nothing else, so that
    no file is touched. *)
Theorem wrong_arity_prints_usage (E : Env) (argv : list string)
    (rows : list (list string)) (w : World) :
  length argv ≠ 4%nat →
  ∃ w', script E argv rows w = (SysExit 1, w')
    ∧ exit_status (script E argv rows w).1 = 1
    ∧ files w' = files w
    ∧ console w'
      = console w
        +:+ "Usage: python3 csv_nslookup.py input.csv ColumnName output.txt"
        +:+ nl.
Proof.
  intros Hlen. pose proof (script_usage E argv rows w Hlen) as Hrun.
  eexists. split; [exact Hrun|]. by rewrite Hrun.
Qed.

Lemma wrong_arity_prints_usage_witness :
  length ["crtsh_csv_to_nslookup.py"; "in.csv"] ≠ 4%nat
  ∧ ∃ w', script E0 ["crtsh_csv_to_nslookup.py"; "in.csv"] spec_rows w0
          = (SysExit 1, w')
      ∧ exit_status (script E0 ["crtsh_csv_to_nslookup.py"; "in.csv"] spec_rows w0).1
        = 1
      ∧ files w' = files w0
      ∧ console w'
        = console w0
          +:+ "Usage: python3 csv_nslookup.py input.csv ColumnName output.txt"
          +:+ nl.
Proof.
  assert (length ["crtsh_csv_to_nslookup.py"; "in.csv"] ≠ 4%nat) as Hlen
    by (simpl; lia).
  split; [exact Hlen|].
  exact (wrong_arity_prints_usage E0 ["crtsh_csv_to_nslookup.py"; "in.csv"]
           spec_rows w0 Hlen).
Defined.

(** X2. On a CSV file with no line at all the reader has no field names,
    the test for the column raises [TypeError], and the run ends with that
    exception uncaught: exit status 1, nothing printed, no file touched. *)
Theorem empty_csv_raises_type_error (E : Env)
    (csv_path column_name out_path : string) (w : World) :
  main E csv_path column_name out_path [] w
  = (Uncaught (Exn "TypeError" "argument of type 'NoneType' is not iterable"), w)
  ∧ exit_status (main E csv_path column_name out_path [] w).1 = 1.
Proof. by rewrite main_empty_input. Qed.

(** X3. The exit status of a run is 2 exactly when the CSV has a header
    row and that row lacks the column. *)
Theorem exit_status_2_iff (E : Env) (csv_path column_name out_path : string)
    (rows : list (list string)) (w : World) :
  exit_status (main E csv_path column_name out_path rows w).1 = 2
  ↔ ∃ fieldnames records,
      rows = fieldnames :: records ∧ column_name ∉ fieldnames.
Proof.
  split.
  - destruct (main_cases E csv_path column_name out_path rows w); simpl;
      intros Hst; try discriminate Hst. eauto.
  - intros (fieldnames & records & -> & Hcol).
    by rewrite main_missing_column.
Qed.






(** ** The loader, by the position of the column *)

Section PositionFacts.

Variables (fieldnames : list string) (column_name : string) (i : nat).
Hypothesis Hnodup : NoDup fieldnames.
Hypothesis Hi : fieldnames !! i = Some column_name.

Lemma column_in_header : column_name ∈ fieldnames.
Proof. by eapply list_elem_of_lookup_2. Qed.

Lemma trimmed_values_cells (records : list (list string)) :
  trimmed_values fieldnames column_name records
  = filter (λ v, v ≠ EmptyString) (map strip (column_cells i records)).
Proof. unfold trimmed_values. by rewrite (column_values_cells _ _ i). Qed.

Lemma short_row_position (records : list (list string)) :
  ¬ no_short_row fieldnames column_name records
  ↔ Exists (λ row, row ≠ [] ∧ (length row ≤ i)%nat) records.
Proof.
  rewrite (no_short_row_position _ i) by done.
  rewrite <- Exists_Forall_neg
    by (intros row; destruct (decide (row = [] ∨ (i < length row)%nat)); auto).
  rewrite !Exists_exists.
  split; intros (row & Hin & Hrow); exists row; (split; [done|]).
  - split; [intros ->; apply Hrow; by left|].
    destruct (decide (length row ≤ i)%nat); [done|].
    exfalso. apply Hrow. right. lia.
  - intros [->|Hlt]; [by destruct Hrow | lia].
Qed.

End PositionFacts.

(** X7. With distinct field names and the column at position [i] of the
    header, the loader ends with the uncaught [AttributeError] exactly when
    some record that is not blank has no field at position [i]. *)
Theorem short_record_raises_attribute_error (E : Env) (column_name : string)
    (fieldnames : list string) (i : nat) (records : list (list string))
    (w : World) :
  NoDup fieldnames →
  fieldnames !! i = Some column_name →
  load_hosts E column_name (fieldnames :: records) w
  = (Uncaught (Exn "AttributeError" "'NoneType' object has no attribute 'strip'"),
     w)
  ↔ Exists (λ row, row ≠ [] ∧ (length row ≤ i)%nat) records.
Proof.
  intros Hnodup Hi.
  pose proof (column_in_header _ _ _ Hi) as Hcol.
  rewrite <- (short_row_position _ _ _ Hnodup Hi).
  unfold load_hosts. simpl. rewrite bool_decide_true by done.
  destruct (no_short_row_dec fieldnames column_name records) as [Hrows|Hshort].
  - rewrite load_loop_values by done. simpl. split; [done|]. by intros [].
  - rewrite load_loop_short by done. done.
Qed.

Lemma short_record_raises_attribute_error_witness :
  NoDup ["CN"; "Issuer"]
  ∧ ["CN"; "Issuer"] !! 1%nat = Some "Issuer"
  ∧ (load_hosts E0 "Issuer" [["CN"; "Issuer"]; ["a.example.com"]] w0
     = (Uncaught (Exn "AttributeError" "'NoneType' object has no attribute 'strip'"),
        w0)
     ↔ Exists (λ row, row ≠ [] ∧ (length row ≤ 1)%nat) [["a.example.com"]]).
Proof.
  assert (NoDup ["CN"; "Issuer"]) as Hnodup
    by (apply (bool_decide_unpack _); vm_compute; exact I).
  assert (["CN"; "Issuer"] !! 1%nat = Some "Issuer") as Hi by reflexivity.
  split; [exact Hnodup|]. split; [exact Hi|].
  exact (short_record_raises_attribute_error E0 "Issuer" ["CN"; "Issuer"] 1
           [["a.example.com"]] w0 Hnodup Hi).
Defined.

(** X8. With distinct field names and the column at position [i], and no
    record short of it, the loader returns the fields at position [i],
    trimmed, without the empty ones, in the order of the records and with
    their repetitions; it prints nothing and touches no file. *)
Theorem loader_returns_cells_in_order (E : Env) (column_name : string)
    (fieldnames : list string) (i : nat) (records : list (list string))
    (w : World) :
  NoDup fieldnames →
  fieldnames !! i = Some column_name →
  Forall (λ row, row = [] ∨ (i < length row)%nat) records →
  load_hosts E column_name (fieldnames :: records) w
  = (Normal (filter (λ v, v ≠ EmptyString) (map strip (column_cells i records))),
     w).
Proof.
  intros Hnodup Hi Hrows.
  apply load_hosts_returned; [by eapply column_in_header|].
  rewrite load_loop_values by (by apply (no_short_row_position _ i)).
  by rewrite (trimmed_values_cells _ _ i).
Qed.

Lemma loader_returns_cells_in_order_witness :
  NoDup ["CN"; "Issuer"]
  ∧ ["CN"; "Issuer"] !! 0%nat = Some "CN"
  ∧ Forall (λ row, row = [] ∨ (0 < length row)%nat) (tail spec_rows)
  ∧ load_hosts E0 "CN" (["CN"; "Issuer"] :: tail spec_rows) w0
    = (Normal (filter (λ v, v ≠ EmptyString)
                 (map strip (column_cells 0 (tail spec_rows)))), w0).
Proof.
  assert (NoDup ["CN"; "Issuer"]) as Hnodup
    by (apply (bool_decide_unpack _); vm_compute; exact I).
  assert (["CN"; "Issuer"] !! 0%nat = Some "CN") as Hi by reflexivity.
  assert (Forall (λ row, row = [] ∨ (0 < length row)%nat) (tail spec_rows))
    as Hrows by (repeat constructor; right; simpl; lia).
  split; [exact Hnodup|]. split; [exact Hi|]. split; [exact Hrows|].
  exact (loader_returns_cells_in_order E0 "CN" ["CN"; "Issuer"] 0
           (tail spec_rows) w0 Hnodup Hi Hrows).
Defined.

(** X9. With distinct field names and the column at position [i], and no
    record short of it, a run that finds a value writes a report whose
    header counts the non-empty trimmed fields of the column and whose
    blocks are as many; the delimiters of the blocks name exactly these
    values, each as often as it occurs, in the order of completion. *)
Theorem report_has_one_block_per_cell (E : Env)
    (csv_path column_name out_path : string) (fieldnames : list string)
    (i : nat) (records : list (list string)) (w : World) :
  let values :=
    filter (λ v, v ≠ EmptyString) (map strip (column_cells i records)) in
  NoDup fieldnames →
  fieldnames !! i = Some column_name →
  Forall (λ row, row = [] ∨ (i < length row)%nat) records →
  values ≠ [] →
  ∃ w' entries,
    main E csv_path column_name out_path (fieldnames :: records) w
    = (Normal tt, w')
    ∧ files w' !! Path.str out_path
      = Some (header_text E (Path.name csv_path) column_name (length values)
              +:+ concat (map block_text entries))
    ∧ length entries = length values
    ∧ map block_host entries ≡ₚ values.
Proof.
  intros values Hnodup Hi Hrows Hne.
  pose proof (column_in_header _ _ _ Hi) as Hcol.
  pose proof (proj2 (no_short_row_position _ i _ records Hnodup Hi) Hrows)
    as Hno_short.
  pose proof (trimmed_values_cells _ _ _ Hnodup Hi records) as Hvalues.
  fold values in Hvalues.
  destruct (main_blocks_match_column E csv_path column_name out_path
              fieldnames records w Hcol Hno_short)
    as (w' & Hmain & Hfile & Hlen & Hperm).
  { by rewrite Hvalues. }
  rewrite Hvalues in Hfile, Hlen, Hperm.
  exists w', (completed E values).
  rewrite length_map in Hlen. done.
Qed.

Lemma report_has_one_block_per_cell_witness :
  ∃ w' entries,
    main E0 "data/in.csv" "CN" "out.txt" (["CN"; "Issuer"] :: tail spec_rows) w0
    = (Normal tt, w')
    ∧ files w' !! Path.str "out.txt"
      = Some (header_text E0 (Path.name "data/in.csv") "CN"
                (length (filter (λ v, v ≠ EmptyString)
                           (map strip (column_cells 0 (tail spec_rows)))))
              +:+ concat (map block_text entries))
    ∧ length entries
      = length (filter (λ v, v ≠ EmptyString)
                  (map strip (column_cells 0 (tail spec_rows))))
    ∧ map block_host entries
      ≡ₚ filter (λ v, v ≠ EmptyString)
           (map strip (column_cells 0 (tail spec_rows))).
Proof.
  assert (NoDup ["CN"; "Issuer"]) as Hnodup
    by (apply (bool_decide_unpack _); vm_compute; exact I).
  assert (["CN"; "Issuer"] !! 0%nat = Some "CN") as Hi by reflexivity.
  assert (Forall (λ row, row = [] ∨ (0 < length row)%nat) (tail spec_rows))
    as Hrows by (repeat constructor; right; simpl; lia).
  assert (filter (λ v, v ≠ EmptyString)
            (map strip (column_cells 0 (tail spec_rows))) ≠ []) as Hne
    by (vm_compute; discriminate).
  exact (report_has_one_block_per_cell E0 "data/in.csv" "CN" "out.txt"
           ["CN"; "Issuer"] 0 (tail spec_rows) w0 Hnodup Hi Hrows Hne).
Defined.

(** X10. With distinct field names and the column at position [i], and
    no record short of it, a run on a column whose fields are all empty
    after trimming prints that no hosts were found and returns; it neither
    creates nor changes any file. *)
Theorem no_cell_no_file (E : Env) (csv_path column_name out_path : string)
    (fieldnames : list string) (i : nat) (records : list (list string))
    (w : World) :
  NoDup fieldnames →
  fieldnames !! i = Some column_name →
  Forall (λ row, row = [] ∨ (i < length row)%nat) records →
  Forall (λ v, strip v = EmptyString) (column_cells i records) →
  main E csv_path column_name out_path (fieldnames :: records) w
  = (Normal tt,
     {| files := files w;
        console := console w +:+ "No hosts found in that column." +:+ nl |}).
Proof.
  intros Hnodup Hi Hrows Hempty.
  apply main_no_values; [by eapply column_in_header | |].
  - by apply (no_short_row_position _ i).
  - rewrite (trimmed_values_cells _ _ i) by done.
    induction Hempty as [|v cells Hv _ IH]; [done|].
    cbn [map]. rewrite filter_cons, Hv. by rewrite decide_False by (by intros []).
Qed.

Lemma no_cell_no_file_witness :
  NoDup ["CN"; "Issuer"]
  ∧ ["CN"; "Issuer"] !! 0%nat = Some "CN"
  ∧ main E0 "data/in.csv" "CN" "out.txt"
      [["CN"; "Issuer"]; ["  "; "X"]; []; [EmptyString; "Y"; "more"]] w0
    = (Normal tt,
       {| files := files w0;
          console := console w0 +:+ "No hosts found in that column." +:+ nl |}).
Proof.
  assert (NoDup ["CN"; "Issuer"]) as Hnodup
    by (apply (bool_decide_unpack _); vm_compute; exact I).
  assert (["CN"; "Issuer"] !! 0%nat = Some "CN") as Hi by reflexivity.
  assert (Forall (λ row, row = [] ∨ (0 < length row)%nat)
            [["  "; "X"]; []; [EmptyString; "Y"; "more"]]) as Hrows.
  { repeat constructor; first [by left | right; simpl; lia]. }
  assert (Forall (λ v, strip v = EmptyString)
            (column_cells 0 [["  "; "X"]; []; [EmptyString; "Y"; "more"]]))
    as Hempty by (repeat constructor).
  split; [exact Hnodup|]. split; [exact Hi|].
  exact (no_cell_no_file E0 "data/in.csv" "CN" "out.txt" ["CN"; "Issuer"] 0
           [["  "; "X"]; []; [EmptyString; "Y"; "more"]] w0
           Hnodup Hi Hrows Hempty).
Defined.

(** ** Records of any shape *)

Section ShapeFacts.

Variables (fieldnames : list string) (column_name : string).

(** Replacing a record by one with the same dict, blank or not alike,
    leaves the loop as it was. *)
Lemma load_loop_same_dict (rows1 : list (list string)) :
  ∀ (row row' : list string) (rows2 : list (list string)) (acc : list string),
    row ≠ [] → row' ≠ [] →
    DictReader.row_dict fieldnames row' = DictReader.row_dict fieldnames row →
    load_loop fieldnames column_name (rows1 ++ row' :: rows2) acc
    = load_loop fieldnames column_name (rows1 ++ row :: rows2) acc.
Proof.
  induction rows1 as [|r rows1 IH]; intros row row' rows2 acc Hrow Hrow' Hdict.
  - simpl app. rewrite !load_loop_record by done. by rewrite Hdict.
  - simpl app. destruct (decide (r = [])) as [->|Hr].
    + rewrite !load_loop_blank. eauto.
    + rewrite !load_loop_record by done.
      destruct (row_get (DictReader.row_dict fieldnames r) column_name)
        as [u|]; [|done].
      destruct (truthy (strip u)); eauto.
Qed.

Lemma load_loop_blank_anywhere (rows1 : list (list string)) :
  ∀ (rows2 : list (list string)) (acc : list string),
    load_loop fieldnames column_name (rows1 ++ [] :: rows2) acc
    = load_loop fieldnames column_name (rows1 ++ rows2) acc.
Proof.
  induction rows1 as [|r rows1 IH]; intros rows2 acc; [done|].
  simpl app. destruct (decide (r = [])) as [->|Hr].
  - rewrite !load_loop_blank. eauto.
  - rewrite !load_loop_record by done.
    destruct (row_get (DictReader.row_dict fieldnames r) column_name)
      as [u|]; [|done].
    destruct (truthy (strip u)); eauto.
Qed.

Lemma zip_app_long (row extra : list string) :
  (length fieldnames ≤ length row)%nat →
  zip fieldnames (row ++ extra) = zip fieldnames row.
Proof.
  revert row. induction fieldnames as [|f fs IH]; intros row Hlen; [done|].
  destruct row as [|r row]; simpl in *; [lia|].
  f_equal. apply IH. lia.
Qed.

Lemma row_dict_app_long (row extra : list string) :
  (length fieldnames ≤ length row)%nat →
  DictReader.row_dict fieldnames (row ++ extra)
  = DictReader.row_dict fieldnames row.
Proof.
  intros Hlen. unfold DictReader.row_dict.
  rewrite zip_app_long by done.
  rewrite !drop_ge; [done | lia | rewrite length_app; lia].
Qed.

End ShapeFacts.

(** X11. With distinct field names, [row.get(column_name, default)] on the
    dict of a record is the field at the column's position, and [None]
    exactly when the record has no field there; the default is never what
    comes back, since the dict has every field name as a key. *)
Theorem row_get_is_field_or_None (fieldnames row : list string) (i : nat)
    (column_name : string) :
  NoDup fieldnames →
  fieldnames !! i = Some column_name →
  DictReader.row_dict fieldnames row !! column_name = Some (row !! i)
  ∧ row_get (DictReader.row_dict fieldnames row) column_name = row !! i
  ∧ (row_get (DictReader.row_dict fieldnames row) column_name = None
     ↔ (length row ≤ i)%nat).
Proof.
  intros Hnodup Hi.
  split; [by apply row_dict_position|].
  rewrite (row_get_position _ _ i) by done.
  split; [done|]. apply lookup_ge_None.
Qed.

Lemma row_get_is_field_or_None_witness :
  NoDup ["CN"; "Issuer"]
  ∧ ["CN"; "Issuer"] !! 1%nat = Some "Issuer"
  ∧ row_get (DictReader.row_dict ["CN"; "Issuer"] ["a.example.com"]) "Issuer"
    = ["a.example.com"] !! 1%nat.
Proof.
  assert (NoDup ["CN"; "Issuer"]) as Hnodup
    by (apply (bool_decide_unpack _); vm_compute; exact I).
  assert (["CN"; "Issuer"] !! 1%nat = Some "Issuer") as Hi by reflexivity.
  split; [exact Hnodup|]. split; [exact Hi|].
  exact (proj1 (proj2 (row_get_is_field_or_None ["CN"; "Issuer"]
                         ["a.example.com"] 1 "Issuer" Hnodup Hi))).
Defined.

(** X12. Fields beyond the header do not count: appending fields to a
    record that is at least as long as the header changes nothing in the
    run, neither its result nor its files nor its console. *)
Theorem extra_fields_are_ignored (E : Env)
    (csv_path column_name out_path : string) (fieldnames : list string)
    (rows1 rows2 : list (list string)) (row extra : list string) (w : World) :
  (length fieldnames ≤ length row)%nat →
  main E csv_path column_name out_path
    (fieldnames :: rows1 ++ (row ++ extra) :: rows2) w
  = main E csv_path column_name out_path
      (fieldnames :: rows1 ++ row :: rows2) w.
Proof.
  intros Hlen.
  destruct (decide (column_name ∈ fieldnames)) as [Hcol|Hcol].
  2: { by rewrite !main_missing_column. }
  assert (row ≠ []) as Hrow.
  { intros ->. destruct fieldnames; [by apply elem_of_nil in Hcol|].
    simpl in Hlen. lia. }
  assert (row ++ extra ≠ []) as Hrow' by (by destruct row).
  unfold main.
  assert (load_hosts E column_name (fieldnames :: rows1 ++ (row ++ extra) :: rows2)
          = load_hosts E column_name (fieldnames :: rows1 ++ row :: rows2))
    as ->; [|done].
  unfold load_hosts. simpl.
  rewrite (load_loop_same_dict _ _ _ row (row ++ extra)); [done..|].
  by apply row_dict_app_long.
Qed.

Lemma extra_fields_are_ignored_witness :
  (length ["CN"; "Issuer"] ≤ length ["a.example.com"; "X"])%nat
  ∧ main E0 "data/in.csv" "CN" "out.txt"
      (["CN"; "Issuer"] :: [] ++ (["a.example.com"; "X"] ++ ["more"; "fields"])
         :: [["b.example.com"; "Z"]]) w0
    = main E0 "data/in.csv" "CN" "out.txt"
        (["CN"; "Issuer"] :: [] ++ ["a.example.com"; "X"]
           :: [["b.example.com"; "Z"]]) w0.
Proof.
  assert (length ["CN"; "Issuer"] ≤ length ["a.example.com"; "X"])%nat as Hlen
    by (simpl; lia).
  split; [exact Hlen|].
  exact (extra_fields_are_ignored E0 "data/in.csv" "CN" "out.txt"
           ["CN"; "Issuer"] [] [["b.example.com"; "Z"]]
           ["a.example.com"; "X"] ["more"; "fields"] w0 Hlen).
Defined.

(** X13. A blank record, the row of an empty line, changes nothing
    wherever it stands among the records: the run with it is the run
    without it. *)
Theorem blank_records_are_ignored (E : Env)
    (csv_path column_name out_path : string) (fieldnames : list string)
    (rows1 rows2 : list (list string)) (w : World) :
  main E csv_path column_name out_path (fieldnames :: rows1 ++ [] :: rows2) w
  = main E csv_path column_name out_path (fieldnames :: rows1 ++ rows2) w.
Proof.
  unfold main.
  assert (load_hosts E column_name (fieldnames :: rows1 ++ [] :: rows2)
          = load_hosts E column_name (fieldnames :: rows1 ++ rows2)) as ->; [|done].
  unfold load_hosts. simpl. by rewrite load_loop_blank_anywhere.
Qed.

(** X14. Loading is idempotent: the hosts that one load returned, written
    one per record under a one-column header, load again as the same list. *)
Theorem loading_again_returns_the_same_hosts (E : Env)
    (column_name column_name' : string) (rows : list (list string))
    (w w' w2 : World) (hosts : list string) :
  load_hosts E column_name rows w = (Normal hosts, w') →
  load_hosts E column_name' ([column_name'] :: map (λ h, [h]) hosts) w2
  = (Normal hosts, w2).
Proof.
  intros Hloaded%load_hosts_loaded.
  assert (NoDup [column_name']) as Hnodup by apply NoDup_singleton.
  assert ([column_name'] !! 0%nat = Some column_name') as Hi by done.
  apply load_hosts_returned; [by eapply column_in_header|].
  rewrite load_loop_values.
  2: { apply (no_short_row_position _ 0); [done..|].
       apply Forall_fmap, Forall_forall. intros h _. right. simpl. lia. }
  rewrite (trimmed_values_cells _ _ 0) by done. simpl. f_equal.
  induction Hloaded as [|h hosts [Hstrip Hne] _ IH]; [done|].
  cbn [map column_cells lookup list_lookup].
  rewrite filter_cons, Hstrip, decide_True by done. by f_equal.
Qed.

Lemma loading_again_returns_the_same_hosts_witness :
  load_hosts E0 "CN" spec_rows w0 = (Normal hosts0, w0)
  ∧ load_hosts E0 "host" (["host"] :: map (λ h, [h]) hosts0) w0
    = (Normal hosts0, w0).
Proof.
  assert (load_hosts E0 "CN" spec_rows w0 = (Normal hosts0, w0)) as Hload
    by (vm_compute; reflexivity).
  split; [exact Hload|].
  exact (loading_again_returns_the_same_hosts E0 "CN" "host" spec_rows w0 w0 w0
           hosts0 Hload).
Defined.

(** ** The resolver on any host *)

Section AnyHostFacts.

Lemma make_nslookup_cmd_blank (host : string) :
  strip host = EmptyString → make_nslookup_cmd host = Returned None.
Proof. intros Hs. unfold make_nslookup_cmd. by rewrite Hs. Qed.

Lemma make_nslookup_cmd_nonblank (host : string) :
  strip host ≠ EmptyString →
  make_nslookup_cmd host
  = Returned (Some ["nslookup"; NSLOOKUP_TYPE; strip host]).
Proof.
  intros Hs. unfold make_nslookup_cmd.
  destruct (strip host) as [|c s]; [congruence | reflexivity].
Qed.

Lemma prefix_append (p s : string) : String.prefix p (p +:+ s) = true.
Proof.
  induction p as [|c p IH]; [by destruct s|].
  rewrite append_cons. simpl. by destruct (ascii_dec c c).
Qed.

End AnyHostFacts.

(** X15. [run_query] never raises, whatever the host and whatever the
    child process does, and the first component of its result is the host
    as it was passed.  The status is [EMPTY_HOSTNAME], with an empty
    output, exactly for a host that is empty after trimming, for which no
    process is run; for every other host it is [OK]. *)
Theorem run_query_never_raises (E : Env) (task : nat) (host : string) :
  ∃ status output,
    run_query E task host = Returned (host, status, output)
    ∧ ((strip host = EmptyString ∧ status = "EMPTY_HOSTNAME"
        ∧ output = EmptyString)
       ∨ (strip host ≠ EmptyString ∧ status = "OK")).
Proof.
  unfold run_query.
  destruct (decide (strip host = EmptyString)) as [Hs|Hs].
  - rewrite make_nslookup_cmd_blank by done. eexists _, _. split; [done|].
    by left.
  - rewrite make_nslookup_cmd_nonblank by done. eexists _, _. split; [done|].
    by right.
Qed.

(** X16. White space around a host does not reach the command: the
    command is built from the trimmed host, it is the command of the
    trimmed host, and the query of the padded host has the status and the
    output of the query of the trimmed one; only the host name that is
    returned keeps the padding. *)
Theorem command_host_is_trimmed (E : Env) (task : nat) (host : string) :
  strip host ≠ EmptyString →
  make_nslookup_cmd host
  = Returned (Some ["nslookup"; "-type=TXT"; strip host])
  ∧ make_nslookup_cmd (strip host) = make_nslookup_cmd host
  ∧ ∃ status output,
      run_query E task host = Returned (host, status, output)
      ∧ run_query E task (strip host) = Returned (strip host, status, output).
Proof.
  intros Hs.
  assert (make_nslookup_cmd (strip host) = make_nslookup_cmd host) as Hsame.
  { rewrite !make_nslookup_cmd_nonblank by (by rewrite ?strip_idem).
    by rewrite strip_idem. }
  split; [by apply make_nslookup_cmd_nonblank|]. split; [done|].
  unfold run_query. rewrite Hsame.
  rewrite make_nslookup_cmd_nonblank by done. by eexists _, _.
Qed.

Lemma command_host_is_trimmed_witness :
  strip "  a.example.com " ≠ EmptyString
  ∧ make_nslookup_cmd "  a.example.com "
    = Returned (Some ["nslookup"; "-type=TXT"; strip "  a.example.com "]).
Proof.
  assert (strip "  a.example.com " ≠ EmptyString) as Hs
    by (vm_compute; discriminate).
  split; [exact Hs|].
  exact (proj1 (command_host_is_trimmed E0 0 "  a.example.com " Hs)).
Defined.

(** X17. The first characters of the output tell how the query ended: the
    output of a child that finished starts with [RETURN_CODE=], whatever
    its return code, and never with [ERROR: ]; the output after a timeout
    or an exception starts with [ERROR: ] and never with [RETURN_CODE=]. *)
Theorem output_kind_by_prefix (E : Env) (task : nat) (host : string) :
  strip host ≠ EmptyString →
  ∃ output,
    run_query E task host = Returned (host, "OK", output)
    ∧ match subprocess_run E task ["nslookup"; "-type=TXT"; strip host] with
      | Completed _ _ _ =>
          String.prefix "RETURN_CODE=" output = true
          ∧ String.prefix "ERROR: " output = false
      | _ =>
          String.prefix "ERROR: " output = true
          ∧ String.prefix "RETURN_CODE=" output = false
      end.
Proof.
  intros Hs. unfold run_query.
  rewrite make_nslookup_cmd_nonblank by done.
  eexists. split; [done|].
  destruct (subprocess_run E task ["nslookup"; NSLOOKUP_TYPE; strip host])
    as [rc out err| |e] eqn:Hrun;
    change ["nslookup"; "-type=TXT"; strip host]
      with ["nslookup"; NSLOOKUP_TYPE; strip host];
    rewrite Hrun.
  - split; [apply prefix_append | done].
  - done.
  - split; [apply prefix_append | done].
Qed.

Lemma output_kind_by_prefix_witness :
  strip "b.example.com" ≠ EmptyString
  ∧ ∃ output,
      run_query E0 1 "b.example.com" = Returned ("b.example.com", "OK", output)
      ∧ match subprocess_run E0 1 ["nslookup"; "-type=TXT"; strip "b.example.com"] with
        | Completed _ _ _ =>
            String.prefix "RETURN_CODE=" output = true
            ∧ String.prefix "ERROR: " output = false
        | _ =>
            String.prefix "ERROR: " output = true
            ∧ String.prefix "RETURN_CODE=" output = false
        end.
Proof.
  assert (strip "b.example.com" ≠ EmptyString) as Hs
    by (vm_compute; discriminate).
  split; [exact Hs|].
  exact (output_kind_by_prefix E0 1 "b.example.com" Hs).
Defined.

(** ** Other settings of the CONFIG block *)

Section ConfigFacts.

Variables (C : Config) (E : Env).

(** At the settings of the source the definitions with a configuration
    are the definitions of the script. *)
Lemma make_nslookup_cmd_with_source (host : string) :
  make_nslookup_cmd_with source_config host = make_nslookup_cmd host.
Proof. reflexivity. Qed.

Lemma run_query_with_source (task : nat) (host : string) :
  run_query_with source_config E task host = run_query E task host.
Proof. reflexivity. Qed.

Lemma main_with_source (csv_path column_name out_path : string)
    (rows : list (list string)) :
  main_with source_config E csv_path column_name out_path rows
  = main E csv_path column_name out_path rows.
Proof. reflexivity. Qed.

Lemma submit_all_with_hosts (hosts : list string) :
  (submit_all_with C E hosts).*2 = hosts.
Proof.
  unfold submit_all_with.
  assert (∀ (f : nat → nat) (l : list string),
    (imap (λ task h, (submit_with C E (f task) h, h)) l).*2 = l) as H.
  { intros f l. revert f.
    induction l as [|h l IH]; intros f; [done|].
    cbn [imap fmap list_fmap]. f_equal. apply (IH (f ∘ S)). }
  apply (H id).
Qed.

Lemma Forall_submit_all_with (P : Future * string → Prop) (hosts : list string) :
  (∀ task h, hosts !! task = Some h → P (submit_with C E task h, h)) →
  Forall P (submit_all_with C E hosts).
Proof.
  intros HP. apply Forall_lookup. intros task entry.
  unfold submit_all_with. rewrite list_lookup_imap.
  destruct (hosts !! task) as [h|] eqn:Hh; [|done].
  intros [= <-]. by apply HP.
Qed.

Lemma make_nslookup_cmd_with_invalid (host : string) :
  cfg_QUERY_CMD C ≠ "nslookup" → cfg_QUERY_CMD C ≠ "dig" →
  strip host ≠ EmptyString →
  make_nslookup_cmd_with C host = Raised QUERY_CMD_error.
Proof.
  intros Hns Hdig Hs. unfold make_nslookup_cmd_with.
  apply String.eqb_neq in Hns, Hdig. rewrite Hns, Hdig.
  destruct (strip host); [congruence | done].
Qed.

(** A run that loads at least one host, for any configuration. *)
Lemma main_with_report (csv_path column_name out_path : string)
    (rows : list (list string)) (w w' : World) (hosts : list string) :
  load_hosts E column_name rows w = (Normal hosts, w') →
  hosts ≠ [] →
  main_with C E csv_path column_name out_path rows w
  = (Normal tt,
     {| files :=
          <[Path.str out_path :=
              header_text E (Path.name csv_path) column_name (length hosts)
              +:+ concat (map block_text
                            (as_completed (completion E)
                               (submit_all_with C E hosts)))]> (files w);
        console := console w
          +:+ ("Done. Results saved to " +:+ Path.str out_path) +:+ nl |}).
Proof.
  intros Hload Hne.
  destruct (load_hosts_normal _ _ _ _ _ _ Hload) as [-> _].
  unfold main_with. erewrite bind_normal by exact Hload.
  rewrite bool_decide_false by done. apply report_run.
Qed.

End ConfigFacts.

(** X18. With [QUERY_CMD] set to [dig], the command for a host that is
    not empty after trimming is [dig +short TXT] followed by the trimmed
    host, whatever [DIG_TYPE] and [NSLOOKUP_TYPE] are set to: the record
    type of the [dig] query is fixed. *)
Theorem dig_command_ignores_types (C : Config) (host : string) :
  cfg_QUERY_CMD C = "dig" →
  strip host ≠ EmptyString →
  make_nslookup_cmd_with C host
  = Returned (Some ["dig"; "+short"; "TXT"; strip host]).
Proof.
  intros Hdig Hs. unfold make_nslookup_cmd_with. rewrite Hdig.
  destruct (strip host); [congruence | done].
Qed.

Lemma dig_command_ignores_types_witness :
  strip " a.example.com" ≠ EmptyString
  ∧ make_nslookup_cmd_with
      {| cfg_QUERY_CMD := "dig"; cfg_NSLOOKUP_TYPE := "-type=TXT";
         cfg_DIG_TYPE := "MX"; cfg_TIMEOUT := 6; cfg_MAX_WORKERS := 12 |}
      " a.example.com"
    = Returned (Some ["dig"; "+short"; "TXT"; strip " a.example.com"]).
Proof.
  assert (strip " a.example.com" ≠ EmptyString) as Hs
    by (vm_compute; discriminate).
  split; [exact Hs|].
  exact (dig_command_ignores_types
           {| cfg_QUERY_CMD := "dig"; cfg_NSLOOKUP_TYPE := "-type=TXT";
              cfg_DIG_TYPE := "MX"; cfg_TIMEOUT := 6; cfg_MAX_WORKERS := 12 |}
           " a.example.com" eq_refl Hs).
Defined.

(** X19. With [QUERY_CMD] set to anything but [nslookup] and [dig], every
    task raises [ValueError] before a process is run; the loop of [main]
    catches it, so that the run still returns with status 0, and the report
    has the header and, for every loaded host, the block with the message of
    the exception. *)
Theorem invalid_query_cmd_fills_every_block (C : Config) (E : Env)
    (csv_path column_name out_path : string) (rows : list (list string))
    (w w' : World) (hosts : list string) :
  cfg_QUERY_CMD C ≠ "nslookup" →
  cfg_QUERY_CMD C ≠ "dig" →
  load_hosts E column_name rows w = (Normal hosts, w') →
  hosts ≠ [] →
  ∃ w'' order,
    main_with C E csv_path column_name out_path rows w = (Normal tt, w'')
    ∧ exit_status (main_with C E csv_path column_name out_path rows w).1 = 0
    ∧ order ≡ₚ hosts
    ∧ files w'' !! Path.str out_path
      = Some (header_text E (Path.name csv_path) column_name (length hosts)
              +:+ concat
                    (map (λ h, block h "ERROR: QUERY_CMD must be 'nslookup' or 'dig'")
                         order)).
Proof.
  intros Hns Hdig Hload Hne.
  pose proof (main_with_report C E csv_path column_name out_path _ _ _ _
                Hload Hne) as Hmain.
  set (entries := as_completed (completion E) (submit_all_with C E hosts))
    in Hmain.
  exists (main_with C E csv_path column_name out_path rows w).2, (entries.*2).
  rewrite Hmain. simpl. split; [done|]. split; [done|]. split.
  { unfold entries.
    rewrite (as_completed_perm (completion E) (submit_all_with C E hosts)).
    by rewrite submit_all_with_hosts. }
  rewrite lookup_insert_eq. do 3 f_equal.
  assert (Forall (λ e, block_text e
                       = block e.2 "ERROR: QUERY_CMD must be 'nslookup' or 'dig'")
            entries) as Hall.
  { unfold entries. rewrite as_completed_perm.
    apply Forall_submit_all_with. intros task h Hh.
    pose proof (load_hosts_lookup _ _ _ _ _ _ _ _ Hload Hh) as [Hstrip Hnonempty].
    unfold block_text, fut_outcome, submit_with, run_query_with. simpl.
    rewrite make_nslookup_cmd_with_invalid by (by rewrite ?Hstrip). done. }
  clear Hmain. clearbody entries.
  induction Hall as [|e entries He _ IH]; [done|].
  cbn [map fmap list_fmap]. by rewrite He, IH.
Qed.

Lemma invalid_query_cmd_fills_every_block_witness :
  load_hosts E0 "CN" spec_rows w0 = (Normal hosts0, w0)
  ∧ ∃ w'' order,
      main_with {| cfg_QUERY_CMD := "host"; cfg_NSLOOKUP_TYPE := "-type=TXT";
                   cfg_DIG_TYPE := "TXT"; cfg_TIMEOUT := 6;
                   cfg_MAX_WORKERS := 12 |}
        E0 "data/in.csv" "CN" "out.txt" spec_rows w0 = (Normal tt, w'')
      ∧ order ≡ₚ hosts0
      ∧ files w'' !! Path.str "out.txt"
        = Some (header_text E0 (Path.name "data/in.csv") "CN" (length hosts0)
                +:+ concat
                      (map (λ h, block h "ERROR: QUERY_CMD must be 'nslookup' or 'dig'")
                           order)).
Proof.
  assert (load_hosts E0 "CN" spec_rows w0 = (Normal hosts0, w0)) as Hload
    by (vm_compute; reflexivity).
  assert (hosts0 ≠ []) as Hne by discriminate.
  destruct (invalid_query_cmd_fills_every_block
              {| cfg_QUERY_CMD := "host"; cfg_NSLOOKUP_TYPE := "-type=TXT";
                 cfg_DIG_TYPE := "TXT"; cfg_TIMEOUT := 6; cfg_MAX_WORKERS := 12 |}
              E0 "data/in.csv" "CN" "out.txt" spec_rows w0 w0 hosts0
              ltac:(discriminate) ltac:(discriminate) Hload Hne)
    as (w'' & order & Hmain & _ & Hperm & Hfile).
  split; [exact Hload|]. exists w'', order. done.
Defined.
